(** * Trusted-state synchronisation: synchronizer/l2_sync/l2_shared

    A shallow embedding of [sync_trusted_state.go].  The engine
    ([SyncTrustedStateTemplate]) owns one mutable field, its [TrustedState]
    cache, and talks to four injected collaborators (remote client, local
    state, batch executor, flush coordinator) and to the transaction handle
    the local state hands out.  The collaborators are interfaces in the
    source and type classes here; their private state is an abstract world
    [W] that every call may read and change.  Every computation of the model
    yields, next to its result and the machine it leaves, the collaborator
    calls it made, with arguments and results, oldest first, so that
    statements about which calls happen, and in which order, can be made.

    Logging ([log.*]), metrics and [time.Now] have no effect on control flow
    or on the engine's state and are left out; so is the [context.Context]
    that is only forwarded to the collaborators.  Batches and windows are
    values: a collaborator that would write through a pointer or a slice it
    shares with the engine's cache is outside the model. *)

From Stdlib Require Import String ZArith List Bool Lia.
Import ListNotations.
Local Open Scope Z_scope.

(** ** Machine integers *)

(** Go's [uint64] is modelled as [Z] with the wrap-around written out. *)
Definition uint64_modulus : Z := 18446744073709551616.
Definition MaxUint64 : Z := 18446744073709551615.

(** Conversion to (or arithmetic result in) [uint64]. *)
Definition uint64 (z : Z) : Z := z mod uint64_modulus.

Definition is_uint64 (z : Z) : Prop := 0 <= z <= MaxUint64.

(** ** Go values used by the engine *)

(** Go [error] values are compared by identity (line 188 tests
    [err != state.ErrNotFound]).  The model names the one sentinel the engine
    tests for and keeps every other error value apart from it; a nil error is
    [None : option error]. *)
Inductive error : Type :=
| state_ErrNotFound
| errors_New (text : string).

Definition error_eqb (a b : error) : bool :=
  match a, b with
  | state_ErrNotFound, state_ErrNotFound => true
  | errors_New x, errors_New y => String.eqb x y
  | _, _ => false
  end.

(** [common.Hash] *)
Definition Hash : Type := Z.

(** [pgx.Tx]: a transaction handle. *)
Definition Tx : Type := nat.

Module types.
(** Modelled from the spec: [types.Batch] of package jsonrpc/types is not
    part of the sources at hand.  A remote batch is a snapshot (number,
    contents, reported state root); its [Number] is an unsigned 64-bit
    integer ([ArgUint64]), which is why the engine converts it with
    [uint64(...)]. *)
Record Batch : Type := { Number : Z; StateRoot : Hash; BatchL2Data : list Z }.
End types.

Module state.
(** Modelled from the spec: [state.Batch] of package state is not part of
    the sources at hand.  A local batch is the persisted record for a batch
    number and carries an intermediate or final state root. *)
Record Batch : Type := { BatchNumber : Z; StateRoot : Hash; WIP : bool }.

Definition ErrNotFound : error := state_ErrNotFound.
End state.

(** [StateRootEntry] (lines 50-56) *)
Record StateRootEntry : Type := { batchNumber : Z; StateRoot : Hash }.

(** [TrustedState] (lines 59-64).  A [*state.Batch] is an [option]: [None] is
    the nil pointer.  A nil slice and an empty slice are both [[]]. *)
Record TrustedState : Type := {
  LastTrustedBatches : list (option state.Batch);
  LastStateRoot : option StateRootEntry
}.

(** ** Collaborator interfaces (lines 24-47)

    Each method takes the collaborators' world and returns its Go results
    together with the new world.  A method with results [(T, error)] returns
    both components, as in Go: the engine decides what to do with a value that
    comes with a non-nil error. *)

Class ZkEVMClientInterface (W : Type) : Type := {
  BatchNumber : W -> (Z * option error) * W;
  BatchByNumber : Z -> W -> (option types.Batch * option error) * W
}.

Class StateInterface (W : Type) : Type := {
  BeginStateTransaction : W -> (Tx * option error) * W;
  GetBatchByNumber : Z -> Tx -> W -> (option state.Batch * option error) * W
}.

Class BatchExecutor (W : Type) : Type := {
  ProcessTrustedBatch :
    option types.Batch -> TrustedState -> Tx -> W ->
    (option TrustedState * option error) * W
}.

Class SyncInterface (W : Type) : Type := {
  PendingFlushID : Z -> string -> W -> W;
  CheckFlushID : Tx -> W -> option error * W
}.

(** The two methods of [pgx.Tx] the engine calls. *)
Class pgxTx (W : Type) : Type := {
  Commit : Tx -> W -> option error * W;
  Rollback : Tx -> W -> option error * W
}.

(** ** The call log *)

Inductive event : Type :=
| CallBatchNumber (ret : Z) (err : option error)
| CallBatchByNumber (number : Z) (ret : option types.Batch) (err : option error)
| CallBeginStateTransaction (ret : Tx) (err : option error)
| CallGetBatchByNumber (batchNumber : Z) (dbTx : Tx)
    (ret : option state.Batch) (err : option error)
| CallProcessTrustedBatch (trustedBatch : option types.Batch)
    (status : TrustedState) (dbTx : Tx)
    (ret : option TrustedState) (err : option error)
| CallCheckFlushID (dbTx : Tx) (err : option error)
| CallCommit (dbTx : Tx) (err : option error)
| CallRollback (dbTx : Tx) (err : option error).

(** ** Control flow of a Go function body *)

(** How a statement sequence ends: it falls through with a value, executes a
    [return], panics (nil dereference), or the model's loop bound runs out. *)
Inductive flow (R A : Type) : Type :=
| Val (a : A)
| Ret (r : R)
| Panic
| OutOfFuel.

Arguments Val {R A} a.
Arguments Ret {R A} r.
Arguments Panic {R A}.
Arguments OutOfFuel {R A}.

Section Engine.

Context {W : Type}.
Context {zkEVMClient : ZkEVMClientInterface W}.
Context {state_ : StateInterface W}.
Context {steps : BatchExecutor W}.
Context {sync : SyncInterface W}.
Context {dbTx_ : pgxTx W}.

(** The engine [s] (its one mutable field) and the collaborators' world. *)
Record machine : Type := {
  s_TrustedState : TrustedState;
  world : W
}.

(** A computation maps the machine to the way it ends, the machine it leaves
    and the collaborator calls it made, oldest first. *)
Definition M (R A : Type) : Type := machine -> flow R A * machine * list event.

Definition val {R A} (a : A) : M R A := fun m => (Val a, m, []).
Definition return_ {R A} (r : R) : M R A := fun m => (Ret r, m, []).
Definition panic {R A} : M R A := fun m => (Panic, m, []).
Definition out_of_fuel {R A} : M R A := fun m => (OutOfFuel, m, []).

Definition bind {R A B} (c : M R A) (k : A -> M R B) : M R B :=
  fun m =>
    match c m with
    | (Val a, m1, l1) => let '(f, m2, l2) := k a m1 in (f, m2, l1 ++ l2)
    | (Ret r, m1, l1) => (Ret r, m1, l1)
    | (Panic, m1, l1) => (Panic, m1, l1)
    | (OutOfFuel, m1, l1) => (OutOfFuel, m1, l1)
    end.

(** A Go function: whatever its body returns is the value of the call. *)
Definition func {R R'} (body : M R R) : M R' R :=
  fun m =>
    match body m with
    | (Val r, m1, l1) => (Val r, m1, l1)
    | (Ret r, m1, l1) => (Val r, m1, l1)
    | (Panic, m1, l1) => (Panic, m1, l1)
    | (OutOfFuel, m1, l1) => (OutOfFuel, m1, l1)
    end.

Notation "x <- c ;; k" := (bind c (fun x => k))
  (at level 61, c at next level, right associativity).
Notation "' pat <- c ;; k" :=
  (bind c (fun x => match x with pat => k end))
  (at level 61, pat pattern, c at next level, right associativity).
Notation "c ;;; k" := (bind c (fun _ => k))
  (at level 61, right associativity).

(** Dereferencing a pointer. *)
Definition deref {R A} (p : option A) : M R A :=
  match p with
  | Some a => val a
  | None => panic
  end.

(** [batches[0]] *)
Definition index0 {R A} (l : list A) : M R A :=
  match l with
  | a :: _ => val a
  | [] => panic
  end.

(** *** Collaborator calls, logged *)

Definition called {R A} (f : W -> A * W) (ev : A -> event) : M R A :=
  fun m =>
    let '(a, w) := f (world m) in
    (Val a, {| s_TrustedState := s_TrustedState m; world := w |}, [ev a]).

Definition zkEVMClient_BatchNumber {R} : M R (Z * option error) :=
  called BatchNumber (fun r => CallBatchNumber (fst r) (snd r)).

Definition zkEVMClient_BatchByNumber {R} (number : Z)
  : M R (option types.Batch * option error) :=
  called (BatchByNumber number)
         (fun r => CallBatchByNumber number (fst r) (snd r)).

Definition state_BeginStateTransaction {R} : M R (Tx * option error) :=
  called BeginStateTransaction
         (fun r => CallBeginStateTransaction (fst r) (snd r)).

Definition state_GetBatchByNumber {R} (batchNumber : Z) (dbTx : Tx)
  : M R (option state.Batch * option error) :=
  called (GetBatchByNumber batchNumber dbTx)
         (fun r => CallGetBatchByNumber batchNumber dbTx (fst r) (snd r)).

Definition steps_ProcessTrustedBatch {R} (trustedBatch : option types.Batch)
    (status : TrustedState) (dbTx : Tx)
  : M R (option TrustedState * option error) :=
  called (ProcessTrustedBatch trustedBatch status dbTx)
         (fun r => CallProcessTrustedBatch trustedBatch status dbTx (fst r) (snd r)).

Definition sync_CheckFlushID {R} (dbTx : Tx) : M R (option error) :=
  called (CheckFlushID dbTx) (CallCheckFlushID dbTx).

Definition dbTx_Commit {R} (dbTx : Tx) : M R (option error) :=
  called (Commit dbTx) (CallCommit dbTx).

Definition dbTx_Rollback {R} (dbTx : Tx) : M R (option error) :=
  called (Rollback dbTx) (CallRollback dbTx).

(** *** The engine's field *)

Definition get_TrustedState {R} : M R TrustedState :=
  fun m => (Val (s_TrustedState m), m, []).

Definition set_TrustedState {R} (ts : TrustedState) : M R unit :=
  fun m => (Val tt, {| s_TrustedState := ts; world := world m |}, []).

(** [NewSyncTrustedStateTemplate] (lines 78-86): the engine starts with the
    zero [TrustedState]. *)
Definition NewSyncTrustedStateTemplate (w : W) : machine :=
  {| s_TrustedState := {| LastTrustedBatches := []; LastStateRoot := None |};
     world := w |}.

(** [CleanTrustedState] (lines 89-92) *)
Definition CleanTrustedState {R} : M R unit :=
  func (
    ts <- get_TrustedState ;;
    set_TrustedState {| LastTrustedBatches := [];
                        LastStateRoot := LastStateRoot ts |} ;;;
    ts <- get_TrustedState ;;
    set_TrustedState {| LastTrustedBatches := LastTrustedBatches ts;
                        LastStateRoot := None |}).

(** *** [isSyncrhonizedTrustedState] (lines 116-118)
<<
  return lastTrustedStateBatchNumber < latestSyncedBatch
>> *)
Definition isSyncrhonizedTrustedState
    (lastTrustedStateBatchNumber latestSyncedBatch : Z) : bool :=
  lastTrustedStateBatchNumber <? latestSyncedBatch.

(** *** [rollback] (lines 175-182)
<<
  rollbackErr := dbTx.Rollback(ctx)
  if rollbackErr != nil { return rollbackErr }
  return err
>> *)
Definition rollback {R} (dbTx : Tx) (err : option error) : M R (option error) :=
  func (
    rollbackErr <- dbTx_Rollback dbTx ;;
    match rollbackErr with
    | Some _ => return_ rollbackErr
    | None => return_ err
    end).

(** *** [getCurrentBatches] (lines 184-208)
<<
  if len(batches) == 0 || batches[0] == nil ||
     (batches[0] != nil && uint64(trustedBatch.Number) != batches[0].BatchNumber) {
      batch, err := s.state.GetBatchByNumber(ctx, uint64(trustedBatch.Number), dbTx)
      if err != nil && err != state.ErrNotFound { return nil, err }
      var prevBatch *state.Batch
      if len(batches) == 0 || batches[0] == nil ||
         (batches[0] != nil && uint64(trustedBatch.Number-1) != batches[0].BatchNumber) {
          prevBatch, err = s.state.GetBatchByNumber(ctx, uint64(trustedBatch.Number-1), dbTx)
          if err != nil && err != state.ErrNotFound { return nil, err }
      } else {
          prevBatch = batches[0]
      }
      batches = []*state.Batch{batch, prevBatch}
  }
  return batches, nil
>> *)

(** [err != nil && err != state.ErrNotFound] *)
Definition lookup_failed (err : option error) : bool :=
  match err with
  | Some e => negb (error_eqb e state.ErrNotFound)
  | None => false
  end.

(** The guard of lines 185 and 193,
    [len(batches) == 0 || batches[0] == nil ||
     (batches[0] != nil && uint64(n) != batches[0].BatchNumber)],
    where [n] is [trustedBatch.Number] or [trustedBatch.Number-1].  Go
    evaluates [||] left to right and stops early, so [trustedBatch] is only
    dereferenced in the last disjunct. *)
Definition slot0_is_not {R} (batches : list (option state.Batch))
    (trustedBatch : option types.Batch) (n : types.Batch -> Z) : M R bool :=
  match batches with
  | [] => val true
  | None :: _ => val true
  | Some b0 :: _ =>
      tb <- deref trustedBatch ;;
      val (negb (uint64 (n tb) =? state.BatchNumber b0))
  end.

Definition getCurrentBatches {R} (batches : list (option state.Batch))
    (trustedBatch : option types.Batch) (dbTx : Tx)
  : M R (list (option state.Batch) * option error) :=
  func (
    refresh <- slot0_is_not batches trustedBatch types.Number ;;
    if (refresh : bool) then
      tb <- deref trustedBatch ;;
      '(batch, err) <- state_GetBatchByNumber (uint64 (types.Number tb)) dbTx ;;
      if lookup_failed err then return_ ([], err) else
      lookup_prev <- slot0_is_not batches trustedBatch
                       (fun tb => types.Number tb - 1) ;;
      prevBatch <-
        (if (lookup_prev : bool) then
           tb <- deref trustedBatch ;;
           '(prevBatch, err) <-
              state_GetBatchByNumber (uint64 (types.Number tb - 1)) dbTx ;;
           if lookup_failed err then return_ ([], err) else val prevBatch
         else index0 batches) ;;
      return_ ([batch; prevBatch], None)
    else return_ (batches, None)).

(** *** [syncTrustedBatchesToFrom] (lines 120-173)
<<
  batchNumberToSync := latestSyncedBatch
  for batchNumberToSync <= lastTrustedStateBatchNumber {
      batchToSync, err := s.zkEVMClient.BatchByNumber(ctx, big.NewInt(0).SetUint64(batchNumberToSync))
      if err != nil { return err }
      dbTx, err := s.state.BeginStateTransaction(ctx)
      if err != nil { return err }
      cbatches, err := s.getCurrentBatches(ctx, s.TrustedState.LastTrustedBatches, batchToSync, dbTx)
      if err != nil { return rollback(ctx, dbTx, err) }
      previousStatus := TrustedState{LastTrustedBatches: cbatches,
                                     LastStateRoot: s.TrustedState.LastStateRoot}
      newTrustedState, err := s.steps.ProcessTrustedBatch(ctx, batchToSync, previousStatus, dbTx)
      if err != nil { return rollback(ctx, dbTx, err) }
      err = s.sync.CheckFlushID(dbTx)
      if err != nil { return rollback(ctx, dbTx, err) }
      if err := dbTx.Commit(ctx); err != nil { return err }
      s.TrustedState = *newTrustedState
      batchNumberToSync++
  }
  return nil
>> *)

(** One pass through the loop body (lines 123-167), up to but excluding
    [batchNumberToSync++]. *)
Definition syncTrustedBatch (batchNumberToSync : Z) : M (option error) unit :=
  '(batchToSync, err) <- zkEVMClient_BatchByNumber batchNumberToSync ;;
  match err with Some _ => return_ err | None => val tt end ;;;
  '(dbTx, err) <- state_BeginStateTransaction ;;
  match err with Some _ => return_ err | None => val tt end ;;;
  ts <- get_TrustedState ;;
  '(cbatches, err) <- getCurrentBatches (LastTrustedBatches ts) batchToSync dbTx ;;
  match err with
  | Some _ => r <- rollback dbTx err ;; return_ r
  | None => val tt
  end ;;;
  ts <- get_TrustedState ;;
  let previousStatus := {| LastTrustedBatches := cbatches;
                           LastStateRoot := LastStateRoot ts |} in
  '(newTrustedState, err) <-
     steps_ProcessTrustedBatch batchToSync previousStatus dbTx ;;
  match err with
  | Some _ => r <- rollback dbTx err ;; return_ r
  | None => val tt
  end ;;;
  err <- sync_CheckFlushID dbTx ;;
  match err with
  | Some _ => r <- rollback dbTx err ;; return_ r
  | None => val tt
  end ;;;
  err <- dbTx_Commit dbTx ;;
  match err with Some _ => return_ err | None => val tt end ;;;
  new <- deref newTrustedState ;;
  set_TrustedState new.

(** The [for] loop of line 122.  [batchNumberToSync++] is [uint64]
    arithmetic and wraps.  [fuel] bounds the number of passes the model
    follows. *)
Fixpoint sync_loop (fuel : nat) (batchNumberToSync lastTrustedStateBatchNumber : Z)
  : M (option error) unit :=
  if batchNumberToSync <=? lastTrustedStateBatchNumber then
    match fuel with
    | O => out_of_fuel
    | S fuel' =>
        syncTrustedBatch batchNumberToSync ;;;
        sync_loop fuel' (uint64 (batchNumberToSync + 1)) lastTrustedStateBatchNumber
    end
  else val tt.

Definition syncTrustedBatchesToFrom {R} (fuel : nat)
    (latestSyncedBatch lastTrustedStateBatchNumber : Z) : M R (option error) :=
  func (
    sync_loop fuel latestSyncedBatch lastTrustedStateBatchNumber ;;;
    return_ None).

(** *** [SyncTrustedState] (lines 95-114)
<<
  if latestSyncedBatch == 0 { latestSyncedBatch = 1 }
  lastTrustedStateBatchNumber, err := s.zkEVMClient.BatchNumber(ctx)
  if err != nil { return err }
  if isSyncrhonizedTrustedState(lastTrustedStateBatchNumber, latestSyncedBatch) {
      return nil
  }
  return s.syncTrustedBatchesToFrom(ctx, latestSyncedBatch, lastTrustedStateBatchNumber)
>> *)
Definition SyncTrustedState (fuel : nat) (latestSyncedBatch : Z)
  : M (option error) (option error) :=
  func (
    let latestSyncedBatch :=
      if latestSyncedBatch =? 0 then 1 else latestSyncedBatch in
    '(lastTrustedStateBatchNumber, err) <- zkEVMClient_BatchNumber ;;
    match err with Some _ => return_ err | None => val tt end ;;;
    if isSyncrhonizedTrustedState lastTrustedStateBatchNumber latestSyncedBatch
    then return_ None
    else
      r <- syncTrustedBatchesToFrom fuel latestSyncedBatch
             lastTrustedStateBatchNumber ;;
      return_ r).

End Engine.

Arguments machine W : clear implicits.

(** ** A scripted set of collaborators

    A small, honest implementation of the five interfaces, used to run the
    engine on concrete inputs: a remote that serves the batch asked for, a
    store with committed rows and the rows pending under the open
    transaction, an executor that writes the processed batch and rolls the
    window forward, and a script of places where a collaborator fails. *)

Module Sim.

Inductive stage : Type :=
| AtFetch | AtBegin | AtLookup | AtProcess | AtFlush | AtCommit | AtRollback.

Definition stage_eqb (a b : stage) : bool :=
  match a, b with
  | AtFetch, AtFetch | AtBegin, AtBegin | AtLookup, AtLookup
  | AtProcess, AtProcess | AtFlush, AtFlush | AtCommit, AtCommit
  | AtRollback, AtRollback => true
  | _, _ => false
  end.

Record World : Type := {
  tip : Z;
  db : list state.Batch;
  pending : list state.Batch;
  next_tx : Tx;
  current : Z;
  faults : list (stage * Z)
}.

(** Is the collaborator scripted to fail at stage [st] for batch [n]? *)
Definition faulty (w : World) (st : stage) (n : Z) : bool :=
  existsb (fun f => stage_eqb (fst f) st && (snd f =? n)) (faults w).

Definition failure (st : stage) : error :=
  errors_New
    match st with
    | AtFetch => "fetch" | AtBegin => "begin" | AtLookup => "lookup"
    | AtProcess => "executor" | AtFlush => "flush" | AtCommit => "commit"
    | AtRollback => "rollback"
    end.

Definition with_current (w : World) (n : Z) : World :=
  {| tip := tip w; db := db w; pending := pending w; next_tx := next_tx w;
     current := n; faults := faults w |}.

Definition with_pending (w : World) (p : list state.Batch) : World :=
  {| tip := tip w; db := db w; pending := p; next_tx := next_tx w;
     current := current w; faults := faults w |}.

Definition upsert (b : state.Batch) (rows : list state.Batch) : list state.Batch :=
  filter (fun x => negb (state.BatchNumber x =? state.BatchNumber b)) rows ++ [b].

Definition remote_batch (n : Z) : types.Batch :=
  {| types.Number := n; types.StateRoot := 1000 + n; types.BatchL2Data := [] |}.

#[global] Instance client : ZkEVMClientInterface World := {|
  BatchNumber w := ((tip w, None), w);
  BatchByNumber n w :=
    if faulty w AtFetch n then ((None, Some (failure AtFetch)), with_current w n)
    else ((Some (remote_batch n), None), with_current w n)
|}.

#[global] Instance store : StateInterface World := {|
  BeginStateTransaction w :=
    let w' := {| tip := tip w; db := db w; pending := [];
                 next_tx := S (next_tx w); current := current w;
                 faults := faults w |} in
    if faulty w AtBegin (current w) then ((next_tx w, Some (failure AtBegin)), w')
    else ((next_tx w, None), w');
  GetBatchByNumber n tx w :=
    if faulty w AtLookup n then ((None, Some (failure AtLookup)), w)
    else match find (fun b => state.BatchNumber b =? n) (db w) with
         | Some b => ((Some b, None), w)
         | None => ((None, Some state.ErrNotFound), w)
         end
|}.

(** The window the scripted executor returns: the processed batch in slot 0
    and, in slot 1, the previous batch when the window it was given holds
    it. *)
Definition next_window (b : state.Batch) (status : TrustedState) : TrustedState :=
  {| LastTrustedBatches :=
       [Some b;
        match nth 1 (LastTrustedBatches status) None with
        | Some p =>
            if state.BatchNumber p + 1 =? state.BatchNumber b then Some p else None
        | None => None
        end];
     LastStateRoot :=
       Some {| batchNumber := state.BatchNumber b; StateRoot := state.StateRoot b |} |}.

#[global] Instance executor : BatchExecutor World := {|
  ProcessTrustedBatch trustedBatch status tx w :=
    match trustedBatch with
    | None => ((None, Some (failure AtProcess)), w)
    | Some tb =>
        if faulty w AtProcess (types.Number tb)
        then ((None, Some (failure AtProcess)), w)
        else
          let b := {| state.BatchNumber := types.Number tb;
                      state.StateRoot := types.StateRoot tb;
                      state.WIP := false |} in
          ((Some (next_window b status), None), with_pending w [b])
    end
|}.

#[global] Instance flusher : SyncInterface World := {|
  PendingFlushID _ _ w := w;
  CheckFlushID tx w :=
    if faulty w AtFlush (current w) then (Some (failure AtFlush), w)
    else (None, w)
|}.

#[global] Instance transaction : pgxTx World := {|
  Commit tx w :=
    if faulty w AtCommit (current w) then (Some (failure AtCommit), w)
    else (None,
          {| tip := tip w; db := fold_right upsert (db w) (pending w);
             pending := []; next_tx := next_tx w; current := current w;
             faults := faults w |});
  Rollback tx w :=
    if faulty w AtRollback (current w)
    then (Some (failure AtRollback), w)
    else (None, with_pending w [])
|}.

(** A world with remote tip [t], an empty store and the given script. *)
Definition fresh (t : Z) (script : list (stage * Z)) : World :=
  {| tip := t; db := []; pending := []; next_tx := O; current := 0;
     faults := script |}.

(** The engine as constructed by [NewSyncTrustedStateTemplate]. *)
Definition engine (t : Z) (script : list (stage * Z)) : machine World :=
  NewSyncTrustedStateTemplate (fresh t script).

Definition committed_numbers (m : machine World) : list Z :=
  map state.BatchNumber (db (world m)).

(** The local batch numbered [n], as the scripted executor writes it. *)
Definition stored (n : Z) : state.Batch :=
  {| state.BatchNumber := n; state.StateRoot := 1000 + n; state.WIP := false |}.


(** An engine whose cache already holds [window]. *)
Definition engine_holding (window : list (option state.Batch))
    (t : Z) (script : list (stage * Z)) : machine World :=
  {| s_TrustedState := {| LastTrustedBatches := window; LastStateRoot := None |};
     world := fresh t script |}.

End Sim.

(** ** Collaborators with an executor of their own mind

    Nothing fails here and the store is empty.  The executor reports the
    batch it processed in slot 0 and a fixed checkpoint batch, number 1, in
    slot 1, whatever window it was given. *)

Module Unchecked.

Record World : Type := { tip : Z }.

Definition checkpoint : state.Batch :=
  {| state.BatchNumber := 1; state.StateRoot := 1001; state.WIP := false |}.

#[global] Instance client : ZkEVMClientInterface World := {|
  BatchNumber w := ((tip w, None), w);
  BatchByNumber n w := ((Some (Sim.remote_batch n), None), w)
|}.

#[global] Instance store : StateInterface World := {|
  BeginStateTransaction w := ((O, None), w);
  GetBatchByNumber n tx w := ((None, Some state.ErrNotFound), w)
|}.

#[global] Instance executor : BatchExecutor World := {|
  ProcessTrustedBatch trustedBatch status tx w :=
    match trustedBatch with
    | None => ((None, Some (Sim.failure Sim.AtProcess)), w)
    | Some tb =>
        ((Some {| LastTrustedBatches :=
                    [Some {| state.BatchNumber := types.Number tb;
                             state.StateRoot := types.StateRoot tb;
                             state.WIP := false |};
                     Some checkpoint];
                  LastStateRoot := LastStateRoot status |},
          None), w)
    end
|}.

#[global] Instance flusher : SyncInterface World := {|
  PendingFlushID _ _ w := w;
  CheckFlushID tx w := (None, w)
|}.

#[global] Instance transaction : pgxTx World := {|
  Commit tx w := (None, w);
  Rollback tx w := (None, w)
|}.

End Unchecked.

(** ** A store that mislabels

    Asked for batch [n], this store returns a batch numbered [2 * n]. *)

Module Mislabelled.

Inductive World : Type := the_world.

#[global] Instance store : StateInterface World := {|
  BeginStateTransaction w := ((O, None), w);
  GetBatchByNumber n tx w := ((Some (Sim.stored (2 * n)), None), w)
|}.

End Mislabelled.

(** ** An executor that hands back the window it was given

    Nothing fails here and the store is empty.  The executor returns the
    status it received, window and state root, as the new trusted state. *)

Module Echo.

Record World : Type := { tip : Z }.

#[global] Instance client : ZkEVMClientInterface World := {|
  BatchNumber w := ((tip w, None), w);
  BatchByNumber n w := ((Some (Sim.remote_batch n), None), w)
|}.

#[global] Instance store : StateInterface World := {|
  BeginStateTransaction w := ((O, None), w);
  GetBatchByNumber n tx w := ((None, Some state.ErrNotFound), w)
|}.

#[global] Instance executor : BatchExecutor World := {|
  ProcessTrustedBatch trustedBatch status tx w := ((Some status, None), w)
|}.

#[global] Instance flusher : SyncInterface World := {|
  PendingFlushID _ _ w := w;
  CheckFlushID tx w := (None, w)
|}.

#[global] Instance transaction : pgxTx World := {|
  Commit tx w := (None, w);
  Rollback tx w := (None, w)
|}.

End Echo.
(** ** Vocabulary of the statements *)

(** The machine with the collaborators' world replaced. *)
Definition at_world {W : Type} (m : machine W) (w : W) : machine W :=
  {| s_TrustedState := s_TrustedState m; world := w |}.

(** Is slot 0 of the window populated with the batch numbered [n]? *)
Definition slot0_holds (batches : list (option state.Batch)) (n : Z) : bool :=
  match batches with
  | Some b0 :: _ => state.BatchNumber b0 =? n
  | _ => false
  end.

(** A lookup in the local store under transaction [dbTx]. *)
Definition is_lookup (dbTx : Tx) (ev : event) : bool :=
  match ev with
  | CallGetBatchByNumber _ tx _ _ => Nat.eqb tx dbTx
  | _ => false
  end.

(** The batch numbers looked up in the local store, in call order. *)
Definition lookups (evs : list event) : list Z :=
  flat_map (fun ev => match ev with
                      | CallGetBatchByNumber n _ _ _ => [n]
                      | _ => []
                      end) evs.

(** What [rollback] returns: the rollback failure if there is one, the
    original cause otherwise. *)
Definition rollback_result (rollbackErr err : option error) : option error :=
  match rollbackErr with
  | Some _ => rollbackErr
  | None => err
  end.

(** An error returned by the executor or by the flush check, with the
    transaction it was returned under. *)
Definition step_error (ev : event) : option (Tx * error) :=
  match ev with
  | CallProcessTrustedBatch _ _ tx _ (Some e) => Some (tx, e)
  | CallCheckFlushID tx (Some e) => Some (tx, e)
  | _ => None
  end.

(** The value of a call of [syncTrustedBatchesToFrom], from the way its loop
    ended. *)
Definition call_result (r : flow (option error) unit)
  : flow (option error) (option error) :=
  match r with
  | Val _ => Val None
  | Ret e => Val e
  | Panic => Panic
  | OutOfFuel => OutOfFuel
  end.

(** The runs of the loop of [syncTrustedBatchesToFrom] as a relation: from
    counter [b] and machine [m] the loop ends as [r] in machine [m'] after the
    calls [evs].  [sync_loop] is included in it ([sync_loop_run]). *)
Inductive loop_run {W : Type} `{ZkEVMClientInterface W} `{StateInterface W}
    `{BatchExecutor W} `{SyncInterface W} `{pgxTx W} (last : Z)
  : Z -> machine W -> flow (option error) unit -> machine W -> list event -> Prop :=
| loop_exit b m :
    last < b -> loop_run last b m (Val tt) m []
| loop_out_of_fuel b m :
    b <= last -> loop_run last b m OutOfFuel m []
| loop_stop b m r m1 evs :
    b <= last ->
    syncTrustedBatch b m = (r, m1, evs) ->
    r <> Val tt ->
    loop_run last b m r m1 evs
| loop_next b m m1 evs1 r m2 evs2 :
    b <= last ->
    syncTrustedBatch b m = (Val tt, m1, evs1) ->
    loop_run last (uint64 (b + 1)) m1 r m2 evs2 ->
    loop_run last b m r m2 (evs1 ++ evs2).


(** The batch numbers requested from the remote, in call order. *)
Definition fetched (evs : list event) : list Z :=
  flat_map (fun ev => match ev with
                      | CallBatchByNumber n _ _ => [n]
                      | _ => []
                      end) evs.

(** The batch numbers whose transaction was committed, in commit order: a
    successful [Commit] is attributed to the batch most recently requested
    from the remote ([cur] before any request). *)
Fixpoint committed_from (cur : Z) (evs : list event) : list Z :=
  match evs with
  | [] => []
  | CallBatchByNumber n _ _ :: evs' => committed_from n evs'
  | CallCommit _ None :: evs' => cur :: committed_from cur evs'
  | _ :: evs' => committed_from cur evs'
  end.

Definition committedBatches (evs : list event) : list Z := committed_from 0 evs.

(** [from, from+1, ..., from+n-1] *)
Fixpoint batch_range (from : Z) (n : nat) : list Z :=
  match n with
  | O => []
  | S n' => from :: batch_range (from + 1) n'
  end.

(** The calls of a pass that committed batch [b]: the batch is fetched, a
    transaction is opened, the window is resolved under it, the executor and
    the flush check succeed under it, and that same transaction is
    committed. *)
Definition pass_committed (b : Z) (evs : list event) : Prop :=
  exists trustedBatch tx L status new,
    evs = CallBatchByNumber b trustedBatch None
          :: CallBeginStateTransaction tx None
          :: L ++ [CallProcessTrustedBatch trustedBatch status tx (Some new) None;
                   CallCheckFlushID tx None;
                   CallCommit tx None] /\
    forallb (is_lookup tx) L = true.

(** When slots 0 and 1 of a window are both populated, is the number in
    slot 0 the number in slot 1 plus one? *)
Definition contiguous (batches : list (option state.Batch)) : bool :=
  match batches with
  | Some b0 :: Some b1 :: _ => state.BatchNumber b0 =? state.BatchNumber b1 + 1
  | _ => true
  end.





(** [n] passes in a row, for the batches [b], [b+1], ..., up to the first one
    that does not complete. *)
Fixpoint passes {W : Type} `{ZkEVMClientInterface W} `{StateInterface W}
    `{BatchExecutor W} `{SyncInterface W} `{pgxTx W}
    (n : nat) (b : Z) (m : machine W)
  : flow (option error) unit * machine W * list event :=
  match n with
  | O => (Val tt, m, [])
  | S n' => bind (syncTrustedBatch b) (fun _ => passes n' (b + 1)) m
  end.

(** * Properties *)

(** ** Arithmetic of [uint64] *)

Lemma uint64_range (z : Z) : is_uint64 (uint64 z).
Proof.
  unfold is_uint64, uint64, uint64_modulus, MaxUint64.
  pose proof (Z.mod_pos_bound z 18446744073709551616 ltac:(lia)). lia.
Qed.

Lemma uint64_id (z : Z) : is_uint64 z -> uint64 z = z.
Proof.
  unfold is_uint64, uint64, uint64_modulus, MaxUint64. intros Hz.
  apply Z.mod_small. lia.
Qed.

Lemma uint64_incr (z : Z) : 0 <= z < MaxUint64 -> uint64 (z + 1) = z + 1.
Proof. intros Hz. apply uint64_id. unfold is_uint64 in *. lia. Qed.

Lemma uint64_decr_zero : uint64 (0 - 1) = MaxUint64.
Proof. reflexivity. Qed.


Lemma error_eqb_eq (a b : error) : error_eqb a b = true <-> a = b.
Proof.
  destruct a as [|x], b as [|y]; simpl; split; intros E;
    try reflexivity; try discriminate.
  - apply String.eqb_eq in E. congruence.
  - inversion E. apply String.eqb_refl.
Qed.

Lemma lookup_failed_true (err : option error) :
  lookup_failed err = true <-> exists e, err = Some e /\ e <> state.ErrNotFound.
Proof.
  destruct err as [e|]; simpl.
  - rewrite negb_true_iff. split.
    + intros E. exists e. split; [reflexivity|]. intros ->. discriminate.
    + intros (e' & [= <-] & Hne). destruct (error_eqb e state.ErrNotFound) eqn:E;
        [apply error_eqb_eq in E; contradiction | reflexivity].
  - split; [discriminate | intros (e & [=] & _)].
Qed.

Ltac unfold_engine :=
  unfold getCurrentBatches, rollback, slot0_is_not, index0, deref,
    zkEVMClient_BatchNumber, zkEVMClient_BatchByNumber,
    state_BeginStateTransaction, state_GetBatchByNumber,
    steps_ProcessTrustedBatch, sync_CheckFlushID, dbTx_Commit, dbTx_Rollback,
    get_TrustedState, set_TrustedState, called, func, bind, val, return_,
    panic, out_of_fuel in *.

Section Properties.

Context {W : Type}.
Context {zkEVMClient : ZkEVMClientInterface W}.
Context {state_ : StateInterface W}.
Context {steps : BatchExecutor W}.
Context {sync : SyncInterface W}.
Context {dbTx_ : pgxTx W}.

(** ** Window resolution *)

Lemma slot0_is_not_eval R batches tb (n : types.Batch -> Z) (m : machine W) :
  @slot0_is_not W R batches (Some tb) n m =
    (Val (negb (slot0_holds batches (uint64 (n tb)))), m, []).
Proof.
  destruct batches as [|[b0|] rest]; try reflexivity.
  unfold_engine. simpl. rewrite Z.eqb_sym. reflexivity.
Qed.

(** The window is returned untouched, with no call at all, when slot 0
    already holds the batch the remote reported. *)
Lemma getCurrentBatches_hit R batches tb dbTx (m : machine W) :
  slot0_holds batches (uint64 (types.Number tb)) = true ->
  @getCurrentBatches _ _ R batches (Some tb) dbTx m = (Val (batches, None), m, []).
Proof.
  intros H. unfold getCurrentBatches, func, bind.
  rewrite slot0_is_not_eval, H. reflexivity.
Qed.

Lemma getCurrentBatches_nil R batches dbTx (m : machine W) :
  @getCurrentBatches _ _ R batches None dbTx m = (Panic, m, []).
Proof. destruct batches as [|[b0|] rest]; reflexivity. Qed.

Lemma getCurrentBatches_slot0_failed R batches tb dbTx (m : machine W) batch err w1 :
  slot0_holds batches (uint64 (types.Number tb)) = false ->
  GetBatchByNumber (uint64 (types.Number tb)) dbTx (world m) = ((batch, err), w1) ->
  lookup_failed err = true ->
  @getCurrentBatches _ _ R batches (Some tb) dbTx m =
    (Val ([], err), at_world m w1,
     [CallGetBatchByNumber (uint64 (types.Number tb)) dbTx batch err]).
Proof.
  intros H0 HG HF. unfold getCurrentBatches, func, bind.
  rewrite slot0_is_not_eval, H0. simpl.
  unfold state_GetBatchByNumber, called. rewrite HG. simpl. rewrite HF.
  reflexivity.
Qed.

Lemma getCurrentBatches_slot1_reused R batches tb dbTx (m : machine W) batch err w1 :
  slot0_holds batches (uint64 (types.Number tb)) = false ->
  GetBatchByNumber (uint64 (types.Number tb)) dbTx (world m) = ((batch, err), w1) ->
  lookup_failed err = false ->
  slot0_holds batches (uint64 (types.Number tb - 1)) = true ->
  @getCurrentBatches _ _ R batches (Some tb) dbTx m =
    (Val ([batch; hd None batches], None), at_world m w1,
     [CallGetBatchByNumber (uint64 (types.Number tb)) dbTx batch err]).
Proof.
  intros H0 HG HF H1. unfold getCurrentBatches, func, bind.
  rewrite slot0_is_not_eval, H0. simpl.
  unfold state_GetBatchByNumber, called. rewrite HG. simpl. rewrite HF.
  rewrite slot0_is_not_eval, H1. simpl.
  destruct batches as [|b rest]; [discriminate|]. reflexivity.
Qed.

Lemma getCurrentBatches_slot1_failed R batches tb dbTx (m : machine W)
    batch err w1 prevBatch err' w2 :
  slot0_holds batches (uint64 (types.Number tb)) = false ->
  GetBatchByNumber (uint64 (types.Number tb)) dbTx (world m) = ((batch, err), w1) ->
  lookup_failed err = false ->
  slot0_holds batches (uint64 (types.Number tb - 1)) = false ->
  GetBatchByNumber (uint64 (types.Number tb - 1)) dbTx w1 = ((prevBatch, err'), w2) ->
  lookup_failed err' = true ->
  @getCurrentBatches _ _ R batches (Some tb) dbTx m =
    (Val ([], err'), at_world m w2,
     [CallGetBatchByNumber (uint64 (types.Number tb)) dbTx batch err;
      CallGetBatchByNumber (uint64 (types.Number tb - 1)) dbTx prevBatch err']).
Proof.
  intros H0 HG HF H1 HG' HF'. unfold getCurrentBatches, func, bind.
  rewrite slot0_is_not_eval, H0. simpl.
  unfold state_GetBatchByNumber, called. rewrite HG. simpl. rewrite HF.
  rewrite slot0_is_not_eval, H1. simpl. rewrite HG'. simpl. rewrite HF'.
  reflexivity.
Qed.

Lemma getCurrentBatches_both_looked_up R batches tb dbTx (m : machine W)
    batch err w1 prevBatch err' w2 :
  slot0_holds batches (uint64 (types.Number tb)) = false ->
  GetBatchByNumber (uint64 (types.Number tb)) dbTx (world m) = ((batch, err), w1) ->
  lookup_failed err = false ->
  slot0_holds batches (uint64 (types.Number tb - 1)) = false ->
  GetBatchByNumber (uint64 (types.Number tb - 1)) dbTx w1 = ((prevBatch, err'), w2) ->
  lookup_failed err' = false ->
  @getCurrentBatches _ _ R batches (Some tb) dbTx m =
    (Val ([batch; prevBatch], None), at_world m w2,
     [CallGetBatchByNumber (uint64 (types.Number tb)) dbTx batch err;
      CallGetBatchByNumber (uint64 (types.Number tb - 1)) dbTx prevBatch err']).
Proof.
  intros H0 HG HF H1 HG' HF'. unfold getCurrentBatches, func, bind.
  rewrite slot0_is_not_eval, H0. simpl.
  unfold state_GetBatchByNumber, called. rewrite HG. simpl. rewrite HF.
  rewrite slot0_is_not_eval, H1. simpl. rewrite HG'. simpl. rewrite HF'.
  reflexivity.
Qed.


(** Case analysis of a window resolution. *)
Lemma getCurrentBatches_cases R batches trustedBatch dbTx (m : machine W)
    (P : flow R (list (option state.Batch) * option error) * machine W * list event -> Prop) :
  (trustedBatch = None -> P (Panic, m, [])) ->
  (forall tb, trustedBatch = Some tb ->
     slot0_holds batches (uint64 (types.Number tb)) = true ->
     P (Val (batches, None), m, [])) ->
  (forall tb batch err w1, trustedBatch = Some tb ->
     slot0_holds batches (uint64 (types.Number tb)) = false ->
     GetBatchByNumber (uint64 (types.Number tb)) dbTx (world m) = ((batch, err), w1) ->
     lookup_failed err = true ->
     P (Val ([], err), at_world m w1,
        [CallGetBatchByNumber (uint64 (types.Number tb)) dbTx batch err])) ->
  (forall tb batch err w1, trustedBatch = Some tb ->
     slot0_holds batches (uint64 (types.Number tb)) = false ->
     GetBatchByNumber (uint64 (types.Number tb)) dbTx (world m) = ((batch, err), w1) ->
     lookup_failed err = false ->
     slot0_holds batches (uint64 (types.Number tb - 1)) = true ->
     P (Val ([batch; hd None batches], None), at_world m w1,
        [CallGetBatchByNumber (uint64 (types.Number tb)) dbTx batch err])) ->
  (forall tb batch err w1 prevBatch err' w2, trustedBatch = Some tb ->
     slot0_holds batches (uint64 (types.Number tb)) = false ->
     GetBatchByNumber (uint64 (types.Number tb)) dbTx (world m) = ((batch, err), w1) ->
     lookup_failed err = false ->
     slot0_holds batches (uint64 (types.Number tb - 1)) = false ->
     GetBatchByNumber (uint64 (types.Number tb - 1)) dbTx w1 = ((prevBatch, err'), w2) ->
     lookup_failed err' = true ->
     P (Val ([], err'), at_world m w2,
        [CallGetBatchByNumber (uint64 (types.Number tb)) dbTx batch err;
         CallGetBatchByNumber (uint64 (types.Number tb - 1)) dbTx prevBatch err'])) ->
  (forall tb batch err w1 prevBatch err' w2, trustedBatch = Some tb ->
     slot0_holds batches (uint64 (types.Number tb)) = false ->
     GetBatchByNumber (uint64 (types.Number tb)) dbTx (world m) = ((batch, err), w1) ->
     lookup_failed err = false ->
     slot0_holds batches (uint64 (types.Number tb - 1)) = false ->
     GetBatchByNumber (uint64 (types.Number tb - 1)) dbTx w1 = ((prevBatch, err'), w2) ->
     lookup_failed err' = false ->
     P (Val ([batch; prevBatch], None), at_world m w2,
        [CallGetBatchByNumber (uint64 (types.Number tb)) dbTx batch err;
         CallGetBatchByNumber (uint64 (types.Number tb - 1)) dbTx prevBatch err'])) ->
  P (getCurrentBatches batches trustedBatch dbTx m).
Proof.
  intros Hnil Hhit Hf0 Hreuse Hf1 Hboth.
  destruct trustedBatch as [tb|];
    [| rewrite getCurrentBatches_nil; auto].
  destruct (slot0_holds batches (uint64 (types.Number tb))) eqn:H0.
  { rewrite getCurrentBatches_hit by assumption. eauto. }
  destruct (GetBatchByNumber (uint64 (types.Number tb)) dbTx (world m))
    as [[batch err] w1] eqn:HG.
  destruct (lookup_failed err) eqn:HF.
  { erewrite getCurrentBatches_slot0_failed by eassumption. eauto. }
  destruct (slot0_holds batches (uint64 (types.Number tb - 1))) eqn:H1.
  { erewrite getCurrentBatches_slot1_reused by eassumption. eauto. }
  destruct (GetBatchByNumber (uint64 (types.Number tb - 1)) dbTx w1)
    as [[prevBatch err'] w2] eqn:HG'.
  destruct (lookup_failed err') eqn:HF'.
  - erewrite getCurrentBatches_slot1_failed by eassumption. eauto.
  - erewrite getCurrentBatches_both_looked_up by eassumption. eauto.
Qed.

(** A resolution only looks batches up, under the transaction it was given,
    leaves the engine's cache alone, and ends by returning (or by the panic of
    a nil remote batch, before any call).  An error it returns is the error
    of its last lookup and is not [state.ErrNotFound]. *)
Lemma getCurrentBatches_summary R batches trustedBatch dbTx (m : machine W) r m' evs :
  @getCurrentBatches _ _ R batches trustedBatch dbTx m = (r, m', evs) ->
  s_TrustedState m' = s_TrustedState m /\
  forallb (is_lookup dbTx) evs = true /\
  match r with
  | Val (_, None) => True
  | Val (_, Some e) =>
      e <> state.ErrNotFound /\
      exists pre n b, evs = pre ++ [CallGetBatchByNumber n dbTx b (Some e)]
  | Panic => trustedBatch = None /\ evs = []
  | Ret _ | OutOfFuel => False
  end.
Proof.
  pattern (@getCurrentBatches _ _ R batches trustedBatch dbTx m).
  apply getCurrentBatches_cases; intros; 
    match goal with H : _ = (r, m', evs) |- _ => inversion H; subst; clear H end;
    simpl; rewrite ?Nat.eqb_refl; repeat split; auto.
  - destruct err as [e|]; [|discriminate].
    match goal with H : lookup_failed (Some e) = true |- _ =>
      apply lookup_failed_true in H; destruct H as (e' & [= <-] & Hne) end.
    split; [assumption|]. exists []. simpl. eauto.
  - destruct err' as [e|]; [|discriminate].
    match goal with H : lookup_failed (Some e) = true |- _ =>
      apply lookup_failed_true in H; destruct H as (e' & [= <-] & Hne) end.
    split; [assumption|]. eexists [_]. simpl. eauto.
Qed.


Lemma rollback_eval R dbTx err (m : machine W) w rollbackErr w' :
  Rollback dbTx w = (rollbackErr, w') ->
  @rollback _ _ R dbTx err (at_world m w) =
    (Val (rollback_result rollbackErr err), at_world m w', [CallRollback dbTx rollbackErr]).
Proof.
  intros H. unfold rollback, func, bind, dbTx_Rollback, called. simpl.
  rewrite H. destruct rollbackErr; reflexivity.
Qed.

(** Case analysis of one pass through the loop body. *)
Lemma syncTrustedBatch_cases b (m : machine W)
    (P : flow (option error) unit * machine W * list event -> Prop) :
  (forall tbo e w1,
     BatchByNumber b (world m) = ((tbo, Some e), w1) ->
     P (Ret (Some e), at_world m w1, [CallBatchByNumber b tbo (Some e)])) ->
  (forall tbo w1 tx e w2,
     BatchByNumber b (world m) = ((tbo, None), w1) ->
     BeginStateTransaction w1 = ((tx, Some e), w2) ->
     P (Ret (Some e), at_world m w2,
        [CallBatchByNumber b tbo None; CallBeginStateTransaction tx (Some e)])) ->
  (forall tbo w1 tx w2 w3 L,
     BatchByNumber b (world m) = ((tbo, None), w1) ->
     BeginStateTransaction w1 = ((tx, None), w2) ->
     getCurrentBatches (R := option error)
       (LastTrustedBatches (s_TrustedState m)) tbo tx (at_world m w2) =
       (Panic, at_world m w3, L) ->
     P (Panic, at_world m w3,
        CallBatchByNumber b tbo None :: CallBeginStateTransaction tx None :: L)) ->
  (forall tbo w1 tx w2 cb e w3 L rerr w4,
     BatchByNumber b (world m) = ((tbo, None), w1) ->
     BeginStateTransaction w1 = ((tx, None), w2) ->
     getCurrentBatches (R := option error)
       (LastTrustedBatches (s_TrustedState m)) tbo tx (at_world m w2) =
       (Val (cb, Some e), at_world m w3, L) ->
     Rollback tx w3 = (rerr, w4) ->
     P (Ret (rollback_result rerr (Some e)), at_world m w4,
        CallBatchByNumber b tbo None :: CallBeginStateTransaction tx None :: L
          ++ [CallRollback tx rerr])) ->
  (forall tbo w1 tx w2 cb w3 L new e w4 rerr w5,
     BatchByNumber b (world m) = ((tbo, None), w1) ->
     BeginStateTransaction w1 = ((tx, None), w2) ->
     getCurrentBatches (R := option error)
       (LastTrustedBatches (s_TrustedState m)) tbo tx (at_world m w2) =
       (Val (cb, None), at_world m w3, L) ->
     let status := {| LastTrustedBatches := cb;
                      LastStateRoot := LastStateRoot (s_TrustedState m) |} in
     ProcessTrustedBatch tbo status tx w3 = ((new, Some e), w4) ->
     Rollback tx w4 = (rerr, w5) ->
     P (Ret (rollback_result rerr (Some e)), at_world m w5,
        CallBatchByNumber b tbo None :: CallBeginStateTransaction tx None :: L
          ++ [CallProcessTrustedBatch tbo status tx new (Some e);
              CallRollback tx rerr])) ->
  (forall tbo w1 tx w2 cb w3 L new w4 e w5 rerr w6,
     BatchByNumber b (world m) = ((tbo, None), w1) ->
     BeginStateTransaction w1 = ((tx, None), w2) ->
     getCurrentBatches (R := option error)
       (LastTrustedBatches (s_TrustedState m)) tbo tx (at_world m w2) =
       (Val (cb, None), at_world m w3, L) ->
     let status := {| LastTrustedBatches := cb;
                      LastStateRoot := LastStateRoot (s_TrustedState m) |} in
     ProcessTrustedBatch tbo status tx w3 = ((new, None), w4) ->
     CheckFlushID tx w4 = (Some e, w5) ->
     Rollback tx w5 = (rerr, w6) ->
     P (Ret (rollback_result rerr (Some e)), at_world m w6,
        CallBatchByNumber b tbo None :: CallBeginStateTransaction tx None :: L
          ++ [CallProcessTrustedBatch tbo status tx new None;
              CallCheckFlushID tx (Some e);
              CallRollback tx rerr])) ->
  (forall tbo w1 tx w2 cb w3 L new w4 w5 e w6,
     BatchByNumber b (world m) = ((tbo, None), w1) ->
     BeginStateTransaction w1 = ((tx, None), w2) ->
     getCurrentBatches (R := option error)
       (LastTrustedBatches (s_TrustedState m)) tbo tx (at_world m w2) =
       (Val (cb, None), at_world m w3, L) ->
     let status := {| LastTrustedBatches := cb;
                      LastStateRoot := LastStateRoot (s_TrustedState m) |} in
     ProcessTrustedBatch tbo status tx w3 = ((new, None), w4) ->
     CheckFlushID tx w4 = (None, w5) ->
     Commit tx w5 = (Some e, w6) ->
     P (Ret (Some e), at_world m w6,
        CallBatchByNumber b tbo None :: CallBeginStateTransaction tx None :: L
          ++ [CallProcessTrustedBatch tbo status tx new None;
              CallCheckFlushID tx None;
              CallCommit tx (Some e)])) ->
  (forall tbo w1 tx w2 cb w3 L w4 w5 w6,
     BatchByNumber b (world m) = ((tbo, None), w1) ->
     BeginStateTransaction w1 = ((tx, None), w2) ->
     getCurrentBatches (R := option error)
       (LastTrustedBatches (s_TrustedState m)) tbo tx (at_world m w2) =
       (Val (cb, None), at_world m w3, L) ->
     let status := {| LastTrustedBatches := cb;
                      LastStateRoot := LastStateRoot (s_TrustedState m) |} in
     ProcessTrustedBatch tbo status tx w3 = ((None, None), w4) ->
     CheckFlushID tx w4 = (None, w5) ->
     Commit tx w5 = (None, w6) ->
     P (Panic, at_world m w6,
        CallBatchByNumber b tbo None :: CallBeginStateTransaction tx None :: L
          ++ [CallProcessTrustedBatch tbo status tx None None;
              CallCheckFlushID tx None;
              CallCommit tx None])) ->
  (forall tbo w1 tx w2 cb w3 L new w4 w5 w6,
     BatchByNumber b (world m) = ((tbo, None), w1) ->
     BeginStateTransaction w1 = ((tx, None), w2) ->
     getCurrentBatches (R := option error)
       (LastTrustedBatches (s_TrustedState m)) tbo tx (at_world m w2) =
       (Val (cb, None), at_world m w3, L) ->
     let status := {| LastTrustedBatches := cb;
                      LastStateRoot := LastStateRoot (s_TrustedState m) |} in
     ProcessTrustedBatch tbo status tx w3 = ((Some new, None), w4) ->
     CheckFlushID tx w4 = (None, w5) ->
     Commit tx w5 = (None, w6) ->
     P (Val tt, {| s_TrustedState := new; world := w6 |},
        CallBatchByNumber b tbo None :: CallBeginStateTransaction tx None :: L
          ++ [CallProcessTrustedBatch tbo status tx (Some new) None;
              CallCheckFlushID tx None;
              CallCommit tx None])) ->
  P (syncTrustedBatch b m).
Proof.
  intros Hfetch Hbegin Hpanic Hresolve Hexec Hflush Hcommit Hnilwin Hok.
  unfold syncTrustedBatch.
  unfold bind at 1. unfold zkEVMClient_BatchByNumber at 1, called.
  case_eq (BatchByNumber b (world m)); intros [tbo err] w1 E1. simpl fst; simpl snd.
  unfold bind at 1.
  destruct err as [e|].
  { unfold return_. simpl. rewrite  ?app_nil_r. eauto. }
  unfold val at 1. 
  unfold bind at 1. unfold state_BeginStateTransaction at 1, called. simpl world.
  case_eq (BeginStateTransaction w1); intros [tx err] w2 E2. simpl fst; simpl snd.
  unfold bind at 1.
  destruct err as [e|].
  { unfold return_. simpl. eauto. }
  unfold val at 1.
  unfold bind at 1. unfold get_TrustedState at 1. simpl s_TrustedState.
  unfold bind at 1.
  fold (at_world m w2).
  case_eq (getCurrentBatches (R := option error)
              (LastTrustedBatches (s_TrustedState m)) tbo tx (at_world m w2));
    intros [rg m3] L EG.
  pose proof (getCurrentBatches_summary _ _ _ _ _ _ _ _ EG) as (Hc & _ & Hr).
  destruct m3 as [c3 w3]. simpl in Hc. subst c3.
  change {| s_TrustedState := s_TrustedState m; world := w3 |}
    with (at_world m w3) in *.
  destruct rg as [[cb [e|]] | | | ]; try contradiction.
  - (* resolution failed *)
    unfold bind at 1. unfold bind at 1.
    case_eq (Rollback tx w3); intros rerr w4 ER.
    rewrite (rollback_eval _ _ _ m _ _ _ ER). unfold return_. simpl. 
    rewrite ?app_nil_r. eauto.
  - unfold bind at 1. unfold val at 1. unfold bind at 1. 
    unfold get_TrustedState at 1. unfold bind at 1.
    unfold steps_ProcessTrustedBatch at 1, called. simpl s_TrustedState. simpl world.
    case_eq (ProcessTrustedBatch tbo
               {| LastTrustedBatches := cb;
                  LastStateRoot := LastStateRoot (s_TrustedState m) |} tx w3);
      intros [new perr] w4 EP.
    simpl fst; simpl snd.
    unfold bind at 1.
    destruct perr as [e|].
    { unfold bind at 1.
      case_eq (Rollback tx w4); intros rerr w5 ER.
      fold (at_world m w4).
      rewrite (rollback_eval _ _ _ m _ _ _ ER). unfold return_. simpl.
      eauto. }
    unfold val at 1. unfold bind at 1. unfold sync_CheckFlushID at 1, called. simpl world.
    case_eq (CheckFlushID tx w4); intros cerr w5 EC.
    unfold bind at 1.
    destruct cerr as [e|].
    { unfold bind at 1.
      case_eq (Rollback tx w5); intros rerr w6 ER.
      fold (at_world m w5).
      rewrite (rollback_eval _ _ _ m _ _ _ ER). unfold return_. simpl.
      eauto. }
    unfold val at 1. unfold bind at 1. unfold dbTx_Commit at 1, called. simpl world.
    case_eq (Commit tx w5); intros kerr w6 EK.
    unfold bind at 1.
    destruct kerr as [e|].
    { unfold return_. simpl. eauto. }
    unfold val at 1. unfold bind at 1.
    destruct new as [new|]; simpl; eauto.
  - simpl. eauto.
Qed.


Lemma sync_loop_run fuel : forall b last (m : machine W) r m' evs,
  sync_loop fuel b last m = (r, m', evs) -> loop_run last b m r m' evs.
Proof.
  induction fuel as [|fuel IH]; intros b last m r m' evs; simpl;
    destruct (Z.leb_spec b last) as [Hle|Hgt].
  - intros [= <- <- <-]. now apply loop_out_of_fuel.
  - intros [= <- <- <-]. now apply loop_exit.
  - unfold bind at 1.
    destruct (syncTrustedBatch b m) as [[r1 m1] evs1] eqn:E1.
    destruct r1 as [[]| e | | ].
    + destruct (sync_loop fuel (uint64 (b + 1)) last m1) as [[r2 m2] evs2] eqn:E2.
      intros [= <- <- <-]. eapply loop_next; eauto.
    + intros [= <- <- <-]. eapply loop_stop; eauto. discriminate.
    + intros [= <- <- <-]. eapply loop_stop; eauto. discriminate.
    + intros [= <- <- <-]. eapply loop_stop; eauto. discriminate.
  - intros [= <- <- <-]. now apply loop_exit.
Qed.

(** Case analysis of a call of [SyncTrustedState]. *)
Lemma SyncTrustedState_cases fuel p (m : machine W) r m' evs :
  SyncTrustedState fuel p m = (r, m', evs) ->
  let p' := if p =? 0 then 1 else p in
  (exists t e w, BatchNumber (world m) = ((t, Some e), w) /\
     r = Val (Some e) /\ m' = at_world m w /\ evs = [CallBatchNumber t (Some e)]) \/
  (exists t w, BatchNumber (world m) = ((t, None), w) /\ t < p' /\
     r = Val None /\ m' = at_world m w /\ evs = [CallBatchNumber t None]) \/
  (exists t w rl evsl, BatchNumber (world m) = ((t, None), w) /\ p' <= t /\
     sync_loop fuel p' t (at_world m w) = (rl, m', evsl) /\
     r = call_result rl /\ evs = CallBatchNumber t None :: evsl).
Proof.
  unfold SyncTrustedState, func. unfold bind at 1.
  unfold zkEVMClient_BatchNumber at 1, called.
  destruct (BatchNumber (world m)) as [[t err] w] eqn:EB. simpl fst; simpl snd.
  fold (at_world m w). unfold bind at 1.
  destruct err as [e|].
  { unfold return_. simpl. intros [= <- <- <-]. left. eauto 10. }
  unfold val at 1. unfold isSyncrhonizedTrustedState.
  destruct (Z.ltb_spec t (if p =? 0 then 1 else p)) as [Hlt|Hge].
  { unfold return_. simpl. intros [= <- <- <-]. right. left. eauto 10. }
  unfold bind at 1. unfold syncTrustedBatchesToFrom, func. unfold bind at 1.
  destruct (sync_loop fuel (if p =? 0 then 1 else p) t (at_world m w))
    as [[rl ml] evsl] eqn:EL.
  intros H. right. right. exists t, w, rl, evsl.
  destruct rl as [[]| e | | ]; simpl in H; injection H as <- <- <-;
    rewrite ?app_nil_r; auto 10.
Qed.



(** A call that is not synchronised starts, after asking for the tip, with
    the pass for the (normalised) progress. *)
Lemma SyncTrustedState_first_pass fuel p (m : machine W) t w r1 m1 evs1 :
  BatchNumber (world m) = ((t, None), w) ->
  (if p =? 0 then 1 else p) <= t ->
  syncTrustedBatch (if p =? 0 then 1 else p) (at_world m w) = (r1, m1, evs1) ->
  exists r m' tail,
    SyncTrustedState (S fuel) p m = (r, m', CallBatchNumber t None :: evs1 ++ tail).
Proof.
  intros HB Hle Hpass. unfold SyncTrustedState, func. unfold bind at 1.
  unfold zkEVMClient_BatchNumber at 1, called. rewrite HB. simpl fst; simpl snd.
  fold (at_world m w). unfold bind at 1, val at 1, isSyncrhonizedTrustedState.
  destruct (Z.ltb_spec t (if p =? 0 then 1 else p)) as [Hlt|_]; [lia|].
  unfold bind at 1, syncTrustedBatchesToFrom, func. unfold bind at 1.
  cbn [sync_loop].
  destruct (Z.leb_spec (if p =? 0 then 1 else p) t) as [_|Hgt]; [|lia].
  unfold bind at 1. rewrite Hpass.
  destruct r1 as [[]|e| |]; simpl; rewrite ?app_nil_r.
  - destruct (sync_loop fuel _ t m1) as [[r2 m2] evs2].
    destruct r2 as [[]|e| |]; simpl; rewrite ?app_nil_r; eauto.
  - exists (Val e), m1, []. now rewrite app_nil_r.
  - exists Panic, m1, []. now rewrite app_nil_r.
  - exists OutOfFuel, m1, []. now rewrite app_nil_r.
Qed.

(** ** Start normalisation *)

(** C8.  A call with progress 0 and a call with progress 1 are the same
    computation: from every machine, with every collaborator behaviour and
    every loop bound, they make the same collaborator calls, end the same
    way, and leave the same cache (and the same world). *)
Theorem SyncTrustedState_zero_is_one (fuel : nat) (m : machine W) :
  SyncTrustedState fuel 0 m = SyncTrustedState fuel 1 m /\
  let '(r0, m0, evs0) := SyncTrustedState fuel 0 m in
  let '(r1, m1, evs1) := SyncTrustedState fuel 1 m in
  evs0 = evs1 /\ r0 = r1 /\
  s_TrustedState m0 = s_TrustedState m1 /\ world m0 = world m1.
Proof.
  assert (E : SyncTrustedState fuel 0 m = SyncTrustedState fuel 1 m).
  { unfold SyncTrustedState. change (0 =? 0) with true. change (1 =? 0) with false.
    reflexivity. }
  split; [exact E|]. rewrite E.
  destruct (SyncTrustedState fuel 1 m) as [[r m'] evs]. repeat split.
Qed.

(** ** Reuse of the cached window *)

Lemma slot0_holds_spec batches n :
  slot0_holds batches n = true <->
  exists b0 rest, batches = Some b0 :: rest /\ state.BatchNumber b0 = n.
Proof.
  destruct batches as [|[b0|] rest]; simpl; split;
    try discriminate; try (intros (? & ? & [=] & _); fail).
  - intros E. apply Z.eqb_eq in E. eauto.
  - intros (b & r & [= <- <-] & <-). apply Z.eqb_refl.
Qed.

Ltac same_call :=
  repeat match goal with
  | H1 : ?f = _, H2 : ?f = _ |- _ =>
      rewrite H1 in H2; inversion H2; subst; clear H2
  end.

Ltac iteration_cases :=
  match goal with
  | |- context [syncTrustedBatch ?b ?m] =>
      pattern (syncTrustedBatch b m); apply syncTrustedBatch_cases; intros
  end.

(** C9.  When slot 0 of the cached window is populated and carries the number
    of the remote batch, window resolution returns the cached slice as it is
    and calls nothing; whatever sits in slot 1 is not looked at, and the
    executor is invoked with the cached window unchanged. *)
Theorem getCurrentBatches_passes_cached_window
    (b : Z) (m : machine W) tb w1 tx w2 b0 rest new err w3 :
  BatchByNumber b (world m) = ((Some tb, None), w1) ->
  BeginStateTransaction w1 = ((tx, None), w2) ->
  LastTrustedBatches (s_TrustedState m) = Some b0 :: rest ->
  state.BatchNumber b0 = uint64 (types.Number tb) ->
  ProcessTrustedBatch (Some tb) (s_TrustedState m) tx w2 = ((new, err), w3) ->
  getCurrentBatches (R := option error) (Some b0 :: rest) (Some tb) tx (at_world m w2) =
    (Val (Some b0 :: rest, None), at_world m w2, []) /\
  exists r m' tail,
    syncTrustedBatch b m =
      (r, m',
       CallBatchByNumber b (Some tb) None
       :: CallBeginStateTransaction tx None
       :: CallProcessTrustedBatch (Some tb) (s_TrustedState m) tx new err
       :: tail).
Proof.
  intros Hfetch Hbegin Hcache Hnum Hexec.
  assert (Hhit : getCurrentBatches (R := option error) (Some b0 :: rest) (Some tb) tx
                   (at_world m w2) = (Val (Some b0 :: rest, None), at_world m w2, [])).
  { apply getCurrentBatches_hit. simpl. rewrite Hnum. apply Z.eqb_refl. }
  split; [exact Hhit|].
  assert (Hst : {| LastTrustedBatches := Some b0 :: rest;
                   LastStateRoot := LastStateRoot (s_TrustedState m) |} =
                s_TrustedState m).
  { destruct (s_TrustedState m); simpl in *; congruence. }
  iteration_cases; same_call;
    try match goal with
    | H : getCurrentBatches _ _ _ _ = _ |- _ =>
        rewrite Hcache, Hhit in H; inversion H; subst; clear H
    end;
    subst status; rewrite Hst in *; same_call; simpl; eauto.
Qed.


Lemma uint64_succ_pred (n : Z) : is_uint64 n -> uint64 (uint64 (n + 1) - 1) = n.
Proof.
  intros Hn. destruct (Z.eq_dec n MaxUint64) as [-> | Hne]; [reflexivity|].
  rewrite uint64_incr by (unfold is_uint64 in *; lia).
  replace (n + 1 - 1) with n by lia. now apply uint64_id.
Qed.

Lemma uint64_succ_neq (n : Z) : is_uint64 n -> uint64 (uint64 (n + 1)) <> n.
Proof.
  intros Hn. destruct (Z.eq_dec n MaxUint64) as [-> | Hne]; [discriminate|].
  rewrite uint64_incr by (unfold is_uint64 in *; lia).
  rewrite uint64_id; unfold is_uint64 in *; lia.
Qed.

Lemma uint64_idem (z : Z) : uint64 (uint64 z) = uint64 z.
Proof. apply uint64_id, uint64_range. Qed.

(** With slot 0 holding batch [n] and the remote batch numbered [n+1], the
    only lookup of a resolution is the one for [n+1]. *)
Lemma getCurrentBatches_rolls_forward R b0 rest tb dbTx (m : machine W) r m' evs :
  is_uint64 (state.BatchNumber b0) ->
  types.Number tb = uint64 (state.BatchNumber b0 + 1) ->
  @getCurrentBatches _ _ R (Some b0 :: rest) (Some tb) dbTx m = (r, m', evs) ->
  lookups evs = [types.Number tb] /\ types.Number tb <> state.BatchNumber b0 /\
  forall batch err w1,
    GetBatchByNumber (types.Number tb) dbTx (world m) = ((batch, err), w1) ->
    lookup_failed err = false ->
    r = Val ([batch; Some b0], None) /\ m' = at_world m w1 /\
    evs = [CallGetBatchByNumber (types.Number tb) dbTx batch err].
Proof.
  intros Hn Hnum.
  assert (Hself : uint64 (types.Number tb) = types.Number tb).
  { rewrite Hnum. apply uint64_idem. }
  assert (Hne : types.Number tb <> state.BatchNumber b0).
  { rewrite <- Hself, Hnum. now apply uint64_succ_neq. }
  assert (H0 : slot0_holds (Some b0 :: rest) (uint64 (types.Number tb)) = false).
  { simpl. rewrite Hself. apply Z.eqb_neq. congruence. }
  assert (H1 : slot0_holds (Some b0 :: rest) (uint64 (types.Number tb - 1)) = true).
  { simpl. rewrite Hnum, uint64_succ_pred by assumption. apply Z.eqb_refl. }
  pattern (@getCurrentBatches _ _ R (Some b0 :: rest) (Some tb) dbTx m).
  apply getCurrentBatches_cases; intros;
    match goal with H : _ = (r, m', evs) |- _ => inversion H; subst; clear H end;
    match goal with H : Some _ = Some _ |- _ => inversion H; subst; clear H | _ => idtac end;
    try discriminate; try congruence.
  - rewrite Hself in *. split; [reflexivity|]. split; [assumption|].
    intros batch' err' w' HG HF. same_call.
  - rewrite Hself in *. split; [reflexivity|]. split; [assumption|].
    intros batch' err' w' HG HF. same_call. auto.
Qed.

(** A pass that completes has installed the window the executor returned
    in it, after committing the transaction the executor ran under. *)
Lemma syncTrustedBatch_installs b (mi : machine W) m1 evs1 trustedBatch status tx w :
  syncTrustedBatch b mi = (Val tt, m1, evs1) ->
  In (CallProcessTrustedBatch trustedBatch status tx (Some w) None) evs1 ->
  s_TrustedState m1 = w /\
  In (CallBatchByNumber b trustedBatch None) evs1 /\
  In (CallCommit tx None) evs1.
Proof.
  intros H Hin. revert H. iteration_cases;
    match goal with
    | E : _ = (Val tt, m1, evs1) |- _ => inversion E; subst; clear E
    end.
  destruct Hin as [E|[E|Hin]]; try discriminate.
  apply in_app_or in Hin. destruct Hin as [Hin|Hin].
  - match goal with
    | H : getCurrentBatches _ _ _ _ = _ |- _ =>
        apply getCurrentBatches_summary in H; destruct H as (_ & HL & _)
    end.
    rewrite forallb_forall in HL. specialize (HL _ Hin). discriminate.
  - destruct Hin as [E|[E|[E|[]]]]; try discriminate.
    inversion E; subst. split; [reflexivity|]. split; [now left|].
    right. right. apply in_or_app. right. simpl. auto.
Qed.

(** A pass that starts with slot 0 of the cache holding batch [n], for a
    remote batch numbered [n+1]: its only lookup is the one for [n+1], and
    the executor is given the looked-up batch with the old slot 0 behind
    it. *)
Lemma syncTrustedBatch_rolls_forward b (m2 : machine W) b0 rest tb w1 tx w2 r m' evs :
  LastTrustedBatches (s_TrustedState m2) = Some b0 :: rest ->
  is_uint64 (state.BatchNumber b0) ->
  types.Number tb = uint64 (state.BatchNumber b0 + 1) ->
  BatchByNumber b (world m2) = ((Some tb, None), w1) ->
  BeginStateTransaction w1 = ((tx, None), w2) ->
  syncTrustedBatch b m2 = (r, m', evs) ->
  lookups evs = [types.Number tb] /\
  forall batch err w3,
    GetBatchByNumber (types.Number tb) tx w2 = ((batch, err), w3) ->
    lookup_failed err = false ->
    exists new perr,
      In (CallProcessTrustedBatch (Some tb)
            {| LastTrustedBatches := [batch; Some b0];
               LastStateRoot := LastStateRoot (s_TrustedState m2) |} tx new perr) evs.
Proof.
  intros Hcache Hrange Hnum Hfetch Hbegin Hrun.
  revert Hrun. iteration_cases; same_call;
    match goal with H : _ = (r, m', evs) |- _ => inversion H; subst; clear H end;
    match goal with
    | H : getCurrentBatches _ _ _ _ = _ |- _ =>
        rewrite Hcache in H;
        apply (getCurrentBatches_rolls_forward _ _ _ _ _ _ _ _ _ Hrange Hnum) in H;
        destruct H as (Hl & _ & Hres)
    end;
    (split;
     [ unfold lookups in *; simpl; rewrite ?flat_map_app; simpl;
       rewrite ?app_nil_r; assumption
     | intros batch0 err0 w30 HG HF;
       destruct (Hres _ _ _ HG HF) as (Hr & _ & _);
       try discriminate Hr; inversion Hr; subst;
       do 2 eexists; right; right; apply in_or_app; right; left; reflexivity ]).
Qed.

(** C5.  For a remote batch numbered [N], window resolution makes no store
    lookup exactly when the cached window is non-empty and its slot 0 is
    populated with the batch numbered [N]; the window is then returned as it
    is, and otherwise the first call is the lookup of [N].  What the cache
    holds after a commit is the window the executor returned, so reuse across
    batches holds as far as the executor reports the batch it processed: when
    the pass for the remote batch numbered [N] commits and the window the
    executor returned in it holds a batch numbered [N] in slot 0, that window
    is the cache, and the next pass on this cache, for the remote batch
    numbered [N+1], looks up [N+1] only, never [N], and gives the executor
    the looked-up batch in slot 0 and the old slot 0 as slot 1. *)
Theorem slot0_reused_iff_cached R batches tb dbTx (m : machine W) :
  let N := uint64 (types.Number tb) in
  let cached :=
    exists b0 rest, batches = Some b0 :: rest /\ state.BatchNumber b0 = N in
  (cached <-> snd (@getCurrentBatches _ _ R batches (Some tb) dbTx m) = []) /\
  (cached ->
     @getCurrentBatches _ _ R batches (Some tb) dbTx m = (Val (batches, None), m, [])) /\
  (~ cached ->
     forall batch err w1,
       GetBatchByNumber N dbTx (world m) = ((batch, err), w1) ->
       exists r m' rest,
         @getCurrentBatches _ _ R batches (Some tb) dbTx m =
           (r, m', CallGetBatchByNumber N dbTx batch err :: rest)) /\
  (forall b mi m1 evs1 committed status tx window b0 rest,
     syncTrustedBatch b mi = (Val tt, m1, evs1) ->
     In (CallProcessTrustedBatch (Some committed) status tx (Some window) None) evs1 ->
     LastTrustedBatches window = Some b0 :: rest ->
     state.BatchNumber b0 = types.Number committed ->
     is_uint64 (types.Number committed) ->
     types.Number tb = uint64 (types.Number committed + 1) ->
     In (CallBatchByNumber b (Some committed) None) evs1 /\
     In (CallCommit tx None) evs1 /\
     s_TrustedState m1 = window /\
     forall b' m2 w1 tx' w2 r m' evs,
       s_TrustedState m2 = s_TrustedState m1 ->
       BatchByNumber b' (world m2) = ((Some tb, None), w1) ->
       BeginStateTransaction w1 = ((tx', None), w2) ->
       syncTrustedBatch b' m2 = (r, m', evs) ->
       lookups evs = [types.Number tb] /\
       ~ In (types.Number committed) (lookups evs) /\
       forall batch err w3,
         GetBatchByNumber (types.Number tb) tx' w2 = ((batch, err), w3) ->
         lookup_failed err = false ->
         exists new perr,
           In (CallProcessTrustedBatch (Some tb)
                 {| LastTrustedBatches := [batch; Some b0];
                    LastStateRoot := LastStateRoot window |} tx' new perr) evs).
Proof.
  intros N cached.
  assert (Hhit : cached ->
    @getCurrentBatches _ _ R batches (Some tb) dbTx m = (Val (batches, None), m, [])).
  { intros Hc. apply getCurrentBatches_hit. now apply slot0_holds_spec. }
  assert (Hmiss : ~ cached ->
    forall batch err w1,
      GetBatchByNumber N dbTx (world m) = ((batch, err), w1) ->
      exists r m' rest,
        @getCurrentBatches _ _ R batches (Some tb) dbTx m =
          (r, m', CallGetBatchByNumber N dbTx batch err :: rest)).
  { intros Hnc batch err w1 HG.
    assert (E : slot0_holds batches N = false).
    { destruct (slot0_holds batches N) eqn:E; [|reflexivity].
      contradiction Hnc. now apply slot0_holds_spec. }
    pattern (@getCurrentBatches _ _ R batches (Some tb) dbTx m).
    apply getCurrentBatches_cases; intros;
      try discriminate;
      match goal with H : Some _ = Some _ |- _ => inversion H; subst; clear H end;
      subst N; try congruence; same_call; eauto. }
  split; [|split; [exact Hhit|split; [exact Hmiss|]]].
  - split.
    + intros Hc. now rewrite (Hhit Hc).
    + intros Hnil. apply slot0_holds_spec.
      destruct (slot0_holds batches N) eqn:E; [reflexivity|]. exfalso.
      revert Hnil. pattern (@getCurrentBatches _ _ R batches (Some tb) dbTx m).
      apply getCurrentBatches_cases; intros; simpl in *;
        try discriminate;
        match goal with H : Some _ = Some _ |- _ => inversion H; subst; clear H end;
        subst N; congruence.
  - intros b mi m1 evs1 committed status tx window b0 rest
           Hpass Hexec Hwindow Hslot0 Hrange Hnum.
    destruct (syncTrustedBatch_installs _ _ _ _ _ _ _ _ Hpass Hexec)
      as (Hcache & Hfetched & Hcommit).
    repeat (split; [assumption|]).
    intros b' m2 w1 tx' w2 r m' evs Hsame Hfetch Hbegin Hrun.
    rewrite Hcache in Hsame.
    assert (Hcache2 : LastTrustedBatches (s_TrustedState m2) = Some b0 :: rest)
      by now rewrite Hsame.
    rewrite <- Hslot0 in Hrange, Hnum.
    destruct (syncTrustedBatch_rolls_forward _ _ _ _ _ _ _ _ _ _ _
                Hcache2 Hrange Hnum Hfetch Hbegin Hrun) as (Hl & Hgiven).
    split; [exact Hl|]. split.
    + rewrite Hl, <- Hslot0. simpl. intros [H|[]].
      apply (uint64_succ_neq _ Hrange). rewrite uint64_idem, <- Hnum. exact H.
    + rewrite <- Hsame. exact Hgiven.
Qed.

(** ** The predecessor lookup wraps around *)

(** C10.  The predecessor's number is [trustedBatch.Number - 1] in unsigned
    64-bit arithmetic.  For a remote batch that reports number 0, and a cache
    whose slot 0 is neither batch 0 nor batch 2^64-1 (so both slots are looked
    up), the slot-1 lookup asks the store for batch 2^64-1; the predecessor is
    not taken to be absent. *)
Theorem getCurrentBatches_predecessor_of_zero R batches tb dbTx (m : machine W)
    batch err w1 prevBatch err' w2 :
  types.Number tb = 0 ->
  slot0_holds batches 0 = false ->
  slot0_holds batches 18446744073709551615 = false ->
  GetBatchByNumber 0 dbTx (world m) = ((batch, err), w1) ->
  lookup_failed err = false ->
  GetBatchByNumber 18446744073709551615 dbTx w1 = ((prevBatch, err'), w2) ->
  uint64 (types.Number tb - 1) = 2 ^ 64 - 1 /\
  @getCurrentBatches _ _ R batches (Some tb) dbTx m =
    (Val (if lookup_failed err' then ([], err') else ([batch; prevBatch], None)),
     at_world m w2,
     [CallGetBatchByNumber 0 dbTx batch err;
      CallGetBatchByNumber 18446744073709551615 dbTx prevBatch err']).
Proof.
  intros Hzero H0 H1 HG HF HG'.
  assert (EN : uint64 (types.Number tb) = 0) by (rewrite Hzero; reflexivity).
  assert (EP : uint64 (types.Number tb - 1) = 18446744073709551615)
    by (rewrite Hzero; reflexivity).
  split; [rewrite EP; reflexivity|].
  destruct (lookup_failed err') eqn:HF'.
  - rewrite <- EN, <- EP in *.
    now rewrite (getCurrentBatches_slot1_failed _ _ _ _ _ _ _ _ _ _ _ H0 HG HF H1 HG' HF').
  - rewrite <- EN, <- EP in *.
    now rewrite (getCurrentBatches_both_looked_up _ _ _ _ _ _ _ _ _ _ _ H0 HG HF H1 HG' HF').
Qed.

(** ** Not-found is not an error *)

(** C6.  A lookup that ends in [state.ErrNotFound] does not fail the window
    resolution: the slot takes the pointer the store returned (nil for a
    store that returns no batch with not-found) and resolution goes on.  Any
    other lookup error, for slot 0 or for slot 1, ends the resolution with
    that error; the pass then rolls the transaction back and returns without
    invoking the executor.  On the first call against an empty store the
    window for batch 1 is resolved with both slots nil and the executor is
    invoked with it. *)
Theorem getCurrentBatches_tolerates_not_found :
  (* not-found for either slot *)
  (forall R batches tb dbTx (m : machine W) batch err w1 prevBatch err' w2,
     slot0_holds batches (uint64 (types.Number tb)) = false ->
     slot0_holds batches (uint64 (types.Number tb - 1)) = false ->
     GetBatchByNumber (uint64 (types.Number tb)) dbTx (world m) = ((batch, err), w1) ->
     GetBatchByNumber (uint64 (types.Number tb - 1)) dbTx w1 = ((prevBatch, err'), w2) ->
     (err = None \/ err = Some state.ErrNotFound) ->
     (err' = None \/ err' = Some state.ErrNotFound) ->
     @getCurrentBatches _ _ R batches (Some tb) dbTx m =
       (Val ([batch; prevBatch], None), at_world m w2,
        [CallGetBatchByNumber (uint64 (types.Number tb)) dbTx batch err;
         CallGetBatchByNumber (uint64 (types.Number tb - 1)) dbTx prevBatch err'])) /\
  (* any other error from the lookup for slot 0 *)
  (forall R batches tb dbTx (m : machine W) batch e w1,
     slot0_holds batches (uint64 (types.Number tb)) = false ->
     GetBatchByNumber (uint64 (types.Number tb)) dbTx (world m) =
       ((batch, Some e), w1) ->
     e <> state.ErrNotFound ->
     @getCurrentBatches _ _ R batches (Some tb) dbTx m =
       (Val ([], Some e), at_world m w1,
        [CallGetBatchByNumber (uint64 (types.Number tb)) dbTx batch (Some e)])) /\
  (* any other error from the lookup for slot 1 *)
  (forall R batches tb dbTx (m : machine W) batch err w1 prevBatch e w2,
     slot0_holds batches (uint64 (types.Number tb)) = false ->
     slot0_holds batches (uint64 (types.Number tb - 1)) = false ->
     GetBatchByNumber (uint64 (types.Number tb)) dbTx (world m) = ((batch, err), w1) ->
     (err = None \/ err = Some state.ErrNotFound) ->
     GetBatchByNumber (uint64 (types.Number tb - 1)) dbTx w1 =
       ((prevBatch, Some e), w2) ->
     e <> state.ErrNotFound ->
     @getCurrentBatches _ _ R batches (Some tb) dbTx m =
       (Val ([], Some e), at_world m w2,
        [CallGetBatchByNumber (uint64 (types.Number tb)) dbTx batch err;
         CallGetBatchByNumber (uint64 (types.Number tb - 1)) dbTx prevBatch (Some e)])) /\
  (* a failed resolution ends the pass *)
  (forall b (m : machine W) tbo w1 tx w2 cb e w3 L rerr w4,
     BatchByNumber b (world m) = ((tbo, None), w1) ->
     BeginStateTransaction w1 = ((tx, None), w2) ->
     getCurrentBatches (R := option error)
       (LastTrustedBatches (s_TrustedState m)) tbo tx (at_world m w2) =
       (Val (cb, Some e), at_world m w3, L) ->
     Rollback tx w3 = (rerr, w4) ->
     syncTrustedBatch b m =
       (Ret (match rerr with Some _ => rerr | None => Some e end), at_world m w4,
        CallBatchByNumber b tbo None :: CallBeginStateTransaction tx None :: L
          ++ [CallRollback tx rerr])) /\
  (* first call, empty store *)
  (forall fuel (w0 : W) t w tb w1 tx w2 w3 w4 new err w5,
     BatchNumber w0 = ((t, None), w) ->
     1 <= t ->
     BatchByNumber 1 w = ((Some tb, None), w1) ->
     types.Number tb = 1 ->
     BeginStateTransaction w1 = ((tx, None), w2) ->
     GetBatchByNumber 1 tx w2 = ((None, Some state.ErrNotFound), w3) ->
     GetBatchByNumber 0 tx w3 = ((None, Some state.ErrNotFound), w4) ->
     let window := {| LastTrustedBatches := [None; None]; LastStateRoot := None |} in
     ProcessTrustedBatch (Some tb) window tx w4 = ((new, err), w5) ->
     exists r m' tail,
       SyncTrustedState (S fuel) 0 (NewSyncTrustedStateTemplate w0) =
         (r, m',
          [CallBatchNumber t None;
           CallBatchByNumber 1 (Some tb) None;
           CallBeginStateTransaction tx None;
           CallGetBatchByNumber 1 tx None (Some state.ErrNotFound);
           CallGetBatchByNumber 0 tx None (Some state.ErrNotFound);
           CallProcessTrustedBatch (Some tb) window tx new err] ++ tail)).
Proof.
  assert (Hnf : forall err, err = None \/ err = Some state.ErrNotFound ->
                            lookup_failed err = false).
  { intros err [-> | ->]; reflexivity. }
  assert (Hother : forall e, e <> state.ErrNotFound -> lookup_failed (Some e) = true).
  { intros e He. apply lookup_failed_true. eauto. }
  split; [|split; [|split; [|split]]].
  - intros R batches tb dbTx m batch err w1 prevBatch err' w2 H0 H1 HG HG' He He'.
    eapply getCurrentBatches_both_looked_up; eauto.
  - intros R batches tb dbTx m batch e w1 H0 HG He.
    eapply getCurrentBatches_slot0_failed; eauto.
  - intros R batches tb dbTx m batch err w1 prevBatch e w2 H0 H1 HG He HG' He'.
    eapply getCurrentBatches_slot1_failed; eauto.
  - intros b m tbo w1 tx w2 cb e w3 L rerr w4 Hfetch Hbegin Hres Hroll.
    iteration_cases; same_call; reflexivity.
  - intros fuel w0 t w tb w1 tx w2 w3 w4 new err w5
      Htip Ht Hfetch Hnum Hbegin HG1 HG0 window Hexec.
    set (m := at_world (NewSyncTrustedStateTemplate w0) w).
    assert (Hres : getCurrentBatches (R := option error) [] (Some tb) tx
                     (at_world m w2) =
                   (Val ([None; None], None), at_world m w4,
                    [CallGetBatchByNumber 1 tx None (Some state.ErrNotFound);
                     CallGetBatchByNumber 0 tx None (Some state.ErrNotFound)])).
    { rewrite (getCurrentBatches_both_looked_up _ [] tb tx _
                 None (Some state.ErrNotFound) w3 None (Some state.ErrNotFound) w4);
        rewrite ?Hnum; auto. }
    assert (Hpass : exists r1 m1 tail1,
              syncTrustedBatch 1 m =
                (r1, m1,
                 [CallBatchByNumber 1 (Some tb) None;
                  CallBeginStateTransaction tx None;
                  CallGetBatchByNumber 1 tx None (Some state.ErrNotFound);
                  CallGetBatchByNumber 0 tx None (Some state.ErrNotFound);
                  CallProcessTrustedBatch (Some tb) window tx new err] ++ tail1)).
    { iteration_cases; simpl in *; same_call;
        try match goal with
        | H : getCurrentBatches _ _ _ _ = _ |- _ =>
            rewrite Hres in H; inversion H; subst; clear H
        end;
        subst status window; same_call; simpl; eauto. }
    destruct Hpass as (r1 & m1 & tail1 & Hpass).
    destruct (SyncTrustedState_first_pass fuel 0 (NewSyncTrustedStateTemplate w0)
                t w _ _ _ Htip Ht Hpass) as (r & m' & tail & Hcall).
    exists r, m', (tail1 ++ tail). rewrite Hcall. reflexivity.
Qed.

(** ** The rollback discipline *)

Ltac split_In :=
  repeat match goal with
  | H : In _ (_ :: _) |- _ => destruct H as [H|H]
  | H : In _ (_ ++ _) |- _ => apply in_app_or in H; destruct H as [H|H]
  | H : In _ [] |- _ => destruct H
  end.

Ltac this_run H :=
  revert H; iteration_cases;
  match goal with
  | E : _ = (_, _, _) |- _ => inversion E; subst; clear E
  end.

Lemma lookup_event dbTx L ev :
  forallb (is_lookup dbTx) L = true -> In ev L ->
  exists n b e, ev = CallGetBatchByNumber n dbTx b e.
Proof.
  intros HL Hin. rewrite forallb_forall in HL. specialize (HL ev Hin).
  destruct ev; try discriminate. simpl in HL. apply Nat.eqb_eq in HL. subst.
  eauto.
Qed.

(** The events of a window resolution are lookups. *)
Ltac resolution_events :=
  repeat match goal with
  | H : getCurrentBatches _ _ ?tx _ = (_, _, ?L), Hin : In ?ev ?L |- _ =>
      let n := fresh "n" in let b := fresh "b" in let e := fresh "e" in
      let E := fresh "E" in
      destruct (lookup_event tx L ev
                  (proj1 (proj2 (getCurrentBatches_summary _ _ _ _ _ _ _ _ H))) Hin)
        as (n & b & e & E); clear Hin;
      first [discriminate E | subst ev]
  end.

(** A pass that completes has seen no executor or flush-check error. *)
Lemma syncTrustedBatch_completed_clean b (m : machine W) m' evs ev :
  syncTrustedBatch b m = (Val tt, m', evs) -> In ev evs -> step_error ev = None.
Proof.
  intros H Hin. this_run H. split_In; subst; resolution_events; reflexivity.
Qed.

(** Within one pass, an executor or flush-check error is followed by the
    rollback of the same transaction and by the return. *)
Lemma syncTrustedBatch_step_error b (m : machine W) r m' evs ev tx e :
  syncTrustedBatch b m = (r, m', evs) ->
  In ev evs -> step_error ev = Some (tx, e) ->
  exists pre rerr,
    evs = pre ++ [ev; CallRollback tx rerr] /\
    In (CallBeginStateTransaction tx None) pre /\
    r = Ret (rollback_result rerr (Some e)).
Proof.
  intros H Hin Hev. this_run H; split_In; subst; resolution_events;
    try discriminate; simpl in Hev; inversion Hev; subst.
  - eexists (_ :: _ :: _), _. split; [reflexivity|]. split; [|reflexivity].
    right. left. reflexivity.
  - eexists (_ :: _ :: _ ++ [_]), _. simpl. rewrite <- app_assoc.
    split; [reflexivity|]. split; [|reflexivity]. right. left. reflexivity.
Qed.

Lemma loop_run_step_error last b (m : machine W) r m' evs ev tx e :
  loop_run last b m r m' evs ->
  In ev evs -> step_error ev = Some (tx, e) ->
  exists pre rerr,
    evs = pre ++ [ev; CallRollback tx rerr] /\
    In (CallBeginStateTransaction tx None) pre /\
    r = Ret (rollback_result rerr (Some e)).
Proof.
  intros Hrun Hin Hev.
  induction Hrun as [b m Hgt | b m Hle | b m r m1 evs Hle Hpass Hr
                    | b m m1 evs1 r m2 evs2 Hle Hpass Hrun IH].
  - destruct Hin.
  - destruct Hin.
  - eapply syncTrustedBatch_step_error; eauto.
  - apply in_app_or in Hin. destruct Hin as [Hin|Hin].
    + rewrite (syncTrustedBatch_completed_clean _ _ _ _ _ Hpass Hin) in Hev.
      discriminate.
    + destruct (IH Hin) as (pre & rerr & -> & Hbegin & ->).
      exists (evs1 ++ pre), rerr. rewrite app_assoc.
      split; [reflexivity|]. split; [|reflexivity].
      apply in_or_app. now right.
Qed.

(** C2.  Whenever [ProcessTrustedBatch] or [CheckFlushID] returns an error
    during a call of [SyncTrustedState], the very next collaborator call is
    the rollback of the transaction the failing step ran under, a transaction
    the engine had opened; that rollback is the last call, and
    [SyncTrustedState] returns the original error if the rollback succeeded
    and the rollback's error if it did not. *)
Theorem rollback_on_step_error fuel p (m : machine W) r m' evs ev tx e :
  SyncTrustedState fuel p m = (r, m', evs) ->
  In ev evs ->
  step_error ev = Some (tx, e) ->
  exists pre rollbackErr,
    evs = pre ++ [ev; CallRollback tx rollbackErr] /\
    In (CallBeginStateTransaction tx None) pre /\
    r = Val (match rollbackErr with
             | Some _ => rollbackErr
             | None => Some e
             end).
Proof.
  intros H Hin Hev.
  destruct (SyncTrustedState_cases _ _ _ _ _ _ H)
    as [(t & e' & w & _ & _ & _ & ->)
       |[(t & w & _ & _ & _ & _ & ->)
        |(t & w & rl & evsl & _ & _ & Hloop & -> & ->)]].
  - destruct Hin as [<-|[]]. discriminate.
  - destruct Hin as [<-|[]]. discriminate.
  - destruct Hin as [<-|Hin]; [discriminate|].
    apply sync_loop_run in Hloop.
    destruct (loop_run_step_error _ _ _ _ _ _ _ _ _ Hloop Hin Hev)
      as (pre & rerr & -> & Hbegin & ->).
    exists (CallBatchNumber t None :: pre), rerr.
    split; [reflexivity|]. split; [now right | reflexivity].
Qed.

(** ** The cache is replaced on commit only *)




(** ** Order of processing and partial failure *)

Lemma batch_range_bounds x from n :
  In x (batch_range from n) -> from <= x < from + Z.of_nat n.
Proof.
  revert from. induction n as [|n IH]; intros from; simpl; [tauto|].
  intros [<- | Hin]; [lia|]. apply IH in Hin. lia.
Qed.

Lemma committed_from_lookups dbTx L c rest :
  forallb (is_lookup dbTx) L = true ->
  committed_from c (L ++ rest) = committed_from c rest.
Proof.
  induction L as [|ev L IH]; simpl; [reflexivity|].
  intros H. apply andb_prop in H. destruct H as (Hev & HL).
  destruct ev; try discriminate. now apply IH.
Qed.

Lemma fetched_lookups dbTx L :
  forallb (is_lookup dbTx) L = true -> fetched L = [].
Proof.
  induction L as [|ev L IH]; simpl; [reflexivity|].
  intros H. apply andb_prop in H. destruct H as (Hev & HL).
  destruct ev; try discriminate. now apply IH.
Qed.

Lemma fetched_app l1 l2 : fetched (l1 ++ l2) = fetched l1 ++ fetched l2.
Proof. apply flat_map_app. Qed.

Lemma pass_committed_fetched b evs : pass_committed b evs -> fetched evs = [b].
Proof.
  intros (tbo & tx & L & st & new & -> & HL).
  change (fetched (CallBatchByNumber b tbo None :: CallBeginStateTransaction tx None :: L ++ _))
    with (b :: fetched (L ++ [CallProcessTrustedBatch tbo st tx (Some new) None;
                              CallCheckFlushID tx None; CallCommit tx None])).
  rewrite fetched_app, (fetched_lookups _ _ HL). reflexivity.
Qed.

Lemma pass_committed_commits b evs c rest :
  pass_committed b evs ->
  committed_from c (evs ++ rest) = b :: committed_from b rest.
Proof.
  intros (tbo & tx & L & st & new & -> & HL). simpl.
  rewrite <- app_assoc, (committed_from_lookups _ _ _ _ HL). reflexivity.
Qed.

Lemma passes_fetched range ps :
  Forall2 pass_committed range ps -> fetched (concat ps) = range.
Proof.
  induction 1 as [|b evs range ps Hp _ IH]; simpl; [reflexivity|].
  rewrite fetched_app, (pass_committed_fetched _ _ Hp), IH. reflexivity.
Qed.

Lemma passes_commits range ps :
  Forall2 pass_committed range ps ->
  forall c rest,
    (forall c1 c2, committed_from c1 rest = committed_from c2 rest) ->
    committed_from c (concat ps ++ rest) = range ++ committed_from c rest.
Proof.
  induction 1 as [|b evs range ps Hp _ IH]; intros c rest Hrest; simpl;
    [reflexivity|].
  rewrite <- app_assoc, (pass_committed_commits _ _ _ _ Hp), IH by assumption.
  f_equal. f_equal. apply Hrest.
Qed.

(** Every pass starts by requesting its batch from the remote. *)
Lemma syncTrustedBatch_fetches_first b (m : machine W) r m' evs :
  syncTrustedBatch b m = (r, m', evs) ->
  exists trustedBatch err rest, evs = CallBatchByNumber b trustedBatch err :: rest.
Proof. intros H. this_run H; eauto. Qed.

(** A pass that completes committed its batch under its own transaction. *)
Lemma syncTrustedBatch_completed b (m : machine W) m' evs :
  syncTrustedBatch b m = (Val tt, m', evs) -> pass_committed b evs.
Proof.
  intros H. this_run H.
  match goal with
  | H : getCurrentBatches _ _ _ _ = _ |- _ =>
      apply getCurrentBatches_summary in H; destruct H as (_ & HL & _)
  end.
  unfold pass_committed. eauto 10.
Qed.

(** A pass that returns, returns an error, requested its batch only and
    committed nothing. *)
Lemma syncTrustedBatch_returned b (m : machine W) e m' evs :
  syncTrustedBatch b m = (Ret e, m', evs) ->
  (exists e', e = Some e') /\ fetched evs = [b] /\
  forall c, committed_from c evs = [].
Proof.
  intros H. this_run H;
    try match goal with
    | H : getCurrentBatches _ _ _ _ = _ |- _ =>
        apply getCurrentBatches_summary in H; destruct H as (_ & HL & _)
    end;
    (split; [try destruct rerr; simpl; eauto|]);
    (split; [|intros c]); simpl;
    rewrite ?fetched_app, ?(fetched_lookups _ _ HL),
            ?(committed_from_lookups _ _ _ _ HL); reflexivity.
Qed.

Lemma loop_run_returned last b (m : machine W) r m' evs :
  loop_run last b m r m' evs ->
  forall e, r = Ret e ->
  is_uint64 b -> last <= MaxUint64 ->
  Z.of_nat (length (fetched evs)) <= last - b + 1 ->
  exists (n : nat) mk ps evs2,
    b + Z.of_nat n <= last /\
    evs = concat ps ++ evs2 /\
    Forall2 pass_committed (batch_range b n) ps /\
    syncTrustedBatch (b + Z.of_nat n) mk = (Ret e, m', evs2).
Proof.
  induction 1 as [b m Hgt | b m Hle | b m r m1 evs Hle Hpass Hr
                 | b m m1 evs1 r m2 evs2 Hle Hpass Hrun IH];
    intros e Hret Hb Hlast Hlen; try discriminate.
  - subst r. exists O, m, [], evs. simpl. rewrite Z.add_0_r.
    repeat split; [lia | constructor | assumption].
  - subst r.
    pose proof (pass_committed_fetched _ _ (syncTrustedBatch_completed _ _ _ _ Hpass))
      as Hf1.
    rewrite fetched_app, Hf1 in Hlen. simpl in Hlen.
    assert (Hnext : fetched evs2 <> []).
    { inversion Hrun; subst;
        match goal with
        | H : syncTrustedBatch _ _ = _ |- _ =>
            destruct (syncTrustedBatch_fetches_first _ _ _ _ _ H) as (? & ? & ? & ->)
        end; simpl; discriminate. }
    assert (Hlt : b < MaxUint64).
    { destruct (Z.eq_dec b MaxUint64) as [-> | ]; [|unfold is_uint64 in Hb; lia].
      destruct (fetched evs2); [contradiction | simpl in Hlen; lia]. }
    rewrite uint64_incr in IH by (unfold is_uint64 in Hb; lia).
    destruct (IH e eq_refl) as (n & mk & ps & evs3 & Hk & -> & Hps & Hfail).
    + unfold is_uint64 in *. lia.
    + assumption.
    + lia.
    + exists (S n), mk, (evs1 :: ps), evs3.
      replace (b + Z.of_nat (S n)) with (b + 1 + Z.of_nat n) by lia.
      repeat split; try assumption.
      * simpl. now rewrite app_assoc.
      * simpl. constructor; [|assumption].
        eapply syncTrustedBatch_completed; eauto.
Qed.

Lemma batch_range_snoc from n :
  batch_range from (S n) = batch_range from n ++ [from + Z.of_nat n].
Proof.
  revert from. induction n as [|n IH]; intros from.
  - simpl. now rewrite Z.add_0_r.
  - change (batch_range from (S (S n))) with (from :: batch_range (from + 1) (S n)).
    rewrite IH. simpl. do 3 f_equal. lia.
Qed.

(** Every pass requests exactly its own batch from the remote. *)
Lemma syncTrustedBatch_fetched b (m : machine W) r m' evs :
  syncTrustedBatch b m = (r, m', evs) -> fetched evs = [b].
Proof.
  intros H. this_run H;
    try match goal with
    | H : getCurrentBatches _ _ _ _ = _ |- _ =>
        apply getCurrentBatches_summary in H; destruct H as (_ & HL & _)
    end;
    simpl; rewrite ?fetched_app, ?(fetched_lookups _ _ HL); reflexivity.
Qed.

(** Below the largest [uint64] the counter does not wrap, and the loop makes
    at most one pass per number in [b, last]. *)
Lemma loop_run_bounded last b (m : machine W) r m' evs :
  loop_run last b m r m' evs ->
  is_uint64 b -> last < MaxUint64 ->
  Z.of_nat (length (fetched evs)) <= Z.max 0 (last - b + 1).
Proof.
  induction 1 as [b m Hgt | b m Hle | b m r m1 evs Hle Hpass Hr
                 | b m m1 evs1 r m2 evs2 Hle Hpass Hrun IH];
    intros Hb Hlast; simpl; try lia.
  - rewrite (syncTrustedBatch_fetched _ _ _ _ _ Hpass). simpl. lia.
  - rewrite fetched_app, (syncTrustedBatch_fetched _ _ _ _ _ Hpass). simpl length.
    rewrite uint64_incr in IH by (unfold is_uint64 in Hb; lia).
    unfold is_uint64 in *. lia.
Qed.

(** A call of [syncTrustedBatchesToFrom] over [from, to] that returns an
    error [e] while still in its first sweep of the range (it has requested
    at most [to - from + 1] batches) has run [n] complete passes, for the
    batches [from, from+1, ..., k-1] in this order, each one committing the
    transaction it opened itself, followed by one pass for batch
    [k = from + n <= to] that returned [e]. *)
Lemma returned_error_decomposes fuel from to (m : machine W) e m' evs :
  is_uint64 from -> is_uint64 to ->
  syncTrustedBatchesToFrom (R := option error) fuel from to m = (Val (Some e), m', evs) ->
  Z.of_nat (length (fetched evs)) <= to - from + 1 ->
  exists (n : nat) mk ps failed,
    let k := from + Z.of_nat n in
    k <= to /\
    evs = concat ps ++ failed /\
    Forall2 pass_committed (batch_range from n) ps /\
    syncTrustedBatch k mk = (Ret (Some e), m', failed) /\
    fetched evs = batch_range from (S n) /\
    committedBatches evs = batch_range from n /\
    ~ In k (committedBatches evs).
Proof.
  intros Hfrom Hto H Hlen.
  unfold syncTrustedBatchesToFrom, func in H. unfold bind at 1 in H.
  destruct (sync_loop fuel from to m) as [[rl ml] evsl] eqn:Hloop.
  assert (Hrl : rl = Ret (Some e) /\ ml = m' /\ evsl = evs).
  { destruct rl as [[]|e'| |]; simpl in H; inversion H; subst;
      rewrite ?app_nil_r; auto. }
  destruct Hrl as (-> & -> & ->). clear H.
  apply sync_loop_run in Hloop.
  destruct (loop_run_returned _ _ _ _ _ _ Hloop (Some e) eq_refl Hfrom
              (proj2 Hto) Hlen)
    as (n & mk & ps & failed & Hk & -> & Hps & Hfail).
  destruct (syncTrustedBatch_returned _ _ _ _ _ Hfail) as (_ & Hf & Hc).
  assert (Hcommitted : committedBatches (concat ps ++ failed) = batch_range from n).
  { unfold committedBatches. rewrite (passes_commits _ _ Hps).
    - rewrite Hc. apply app_nil_r.
    - intros c1 c2. now rewrite !Hc. }
  exists n, mk, ps, failed. cbv zeta.
  repeat split; try assumption.
  - rewrite fetched_app, (passes_fetched _ _ Hps), Hf. symmetry.
    apply batch_range_snoc.
  - rewrite Hcommitted. intros Hin. apply batch_range_bounds in Hin. lia.
Qed.

(** When the tip is below the largest [uint64], every run stays within its
    first sweep, so the bound assumed above holds by itself. *)
Lemma first_sweep_below_max fuel from to (m : machine W) r m' evs :
  is_uint64 from -> from <= to -> to < MaxUint64 ->
  syncTrustedBatchesToFrom (R := option error) fuel from to m = (r, m', evs) ->
  Z.of_nat (length (fetched evs)) <= to - from + 1.
Proof.
  intros Hfrom Hle Hto H.
  unfold syncTrustedBatchesToFrom, func in H. unfold bind at 1 in H.
  destruct (sync_loop fuel from to m) as [[rl ml] evsl] eqn:Hloop.
  assert (Hevs : evsl = evs).
  { destruct rl as [[]|e'| |]; simpl in H; inversion H; subst;
      rewrite ?app_nil_r; auto. }
  subst evsl. apply sync_loop_run in Hloop.
  pose proof (loop_run_bounded _ _ _ _ _ _ Hloop Hfrom Hto). lia.
Qed.

(** The log of [n] completed passes. *)
Lemma passes_completed n : forall b (m : machine W) m1 evs1,
  passes n b m = (Val tt, m1, evs1) ->
  exists ps, evs1 = concat ps /\ Forall2 pass_committed (batch_range b n) ps.
Proof.
  induction n as [|n IH]; intros b m m1 evs1 H; simpl in H.
  - injection H as <- <-. exists []. split; [reflexivity | constructor].
  - unfold bind in H.
    destruct (syncTrustedBatch b m) as [[r1 mb] l1] eqn:E1.
    destruct r1 as [[]|e| |]; try discriminate H.
    destruct (passes n (b + 1) mb) as [[r2 mn] l2] eqn:E2.
    injection H as -> <- <-.
    destruct (IH _ _ _ _ E2) as (ps & -> & Hps).
    exists (l1 :: ps). split; [reflexivity|].
    simpl. constructor; [|assumption].
    eapply syncTrustedBatch_completed; eauto.
Qed.

(** As long as the counter stays within [uint64] and within the range, the
    loop starts with the passes of [passes]. *)
Lemma sync_loop_after_passes n : forall b last fuel (m : machine W) m1 evs1,
  is_uint64 b ->
  b + Z.of_nat n <= MaxUint64 ->
  b + Z.of_nat n <= last + 1 ->
  passes n b m = (Val tt, m1, evs1) ->
  sync_loop (n + fuel) b last m =
    (let '(r, m2, evs2) := sync_loop fuel (b + Z.of_nat n) last m1 in
     (r, m2, evs1 ++ evs2)).
Proof.
  induction n as [|n IH]; intros b last fuel m m1 evs1 Hb Hmax Hlast H.
  - simpl in H. injection H as <- <-. simpl. rewrite Z.add_0_r.
    destruct (sync_loop fuel b last m) as [[r m2] evs2]. reflexivity.
  - simpl in H. unfold bind in H.
    destruct (syncTrustedBatch b m) as [[r1 mb] l1] eqn:E1.
    destruct r1 as [[]|e| |]; try discriminate H.
    destruct (passes n (b + 1) mb) as [[r2 mn] l2] eqn:E2.
    injection H as -> <- <-.
    change (sync_loop (S n + fuel) b last m) with
      ((if b <=? last
        then bind (syncTrustedBatch b)
               (fun _ => sync_loop (n + fuel) (uint64 (b + 1)) last)
        else val tt) m).
    destruct (Z.leb_spec b last) as [_|Hgt]; [|lia].
    unfold bind. rewrite E1.
    rewrite uint64_incr by (unfold is_uint64 in Hb; lia).
    rewrite (IH (b + 1) last fuel mb mn l2); try assumption; try lia.
    + replace (b + 1 + Z.of_nat n) with (b + Z.of_nat (S n)) by lia.
      destruct (sync_loop fuel (b + Z.of_nat (S n)) last mn) as [[r m2] evs2].
      now rewrite app_assoc.
    + unfold is_uint64 in *. lia.
Qed.


(** When all the passes for [from..to] complete and [to] is below the largest
    [uint64], the call returns nil, having requested and committed exactly
    [from..to], in ascending order. *)
Lemma full_sync_commits_all (n : nat) from to fuel (m : machine W) m1 evs1 :
  is_uint64 from -> to < MaxUint64 -> from + Z.of_nat n = to + 1 ->
  passes n from m = (Val tt, m1, evs1) ->
  syncTrustedBatchesToFrom (R := option error) (n + fuel) from to m =
    (Val None, m1, evs1) /\
  fetched evs1 = batch_range from n /\
  committedBatches evs1 = batch_range from n.
Proof.
  intros Hfrom Hto Hn Hpasses.
  destruct (passes_completed _ _ _ _ _ Hpasses) as (ps & Hevs1 & Hps).
  split; [|split].
  - unfold syncTrustedBatchesToFrom, func. unfold bind at 1.
    rewrite (sync_loop_after_passes n from to fuel m m1 evs1);
      try assumption; try lia.
    rewrite Hn.
    assert (Hexit : sync_loop fuel (to + 1) to m1 = (Val tt, m1, [])).
    { destruct fuel; simpl; destruct (Z.leb_spec (to + 1) to); try lia; reflexivity. }
    rewrite Hexit. simpl. now rewrite !app_nil_r.
  - rewrite Hevs1. now apply passes_fetched.
  - unfold committedBatches.
    rewrite <- (app_nil_r evs1), Hevs1, (passes_commits _ _ Hps) by reflexivity.
    apply app_nil_r.
Qed.

(** With the tip at the largest [uint64] the loop has no way out through its
    test: it ends by an error or a panic only. *)
Lemma loop_run_at_max_never_exits b (m : machine W) r m' evs :
  loop_run MaxUint64 b m r m' evs -> is_uint64 b -> r <> Val tt.
Proof.
  induction 1 as [b m Hgt | b m Hle | b m r m1 evs Hle Hpass Hr
                 | b m m1 evs1 r m2 evs2 Hle Hpass Hrun IH];
    intros Hb; try assumption; try discriminate.
  - unfold is_uint64 in Hb. lia.
  - apply IH, uint64_range.
Qed.

(** ** Contiguity of the window *)








(** ** The synchronised check *)

Lemma isSyncrhonizedTrustedState_iff t p :
  isSyncrhonizedTrustedState t p = true <-> t < p.
Proof. apply Z.ltb_lt. Qed.

(** With the tip below the progress the call returns success after asking the
    remote for its tip and nothing else. *)
Lemma SyncTrustedState_synchronized fuel p (m : machine W) t w :
  BatchNumber (world m) = ((t, None), w) ->
  t < (if p =? 0 then 1 else p) ->
  SyncTrustedState fuel p m = (Val None, at_world m w, [CallBatchNumber t None]).
Proof.
  intros HB Hlt. unfold SyncTrustedState, func. unfold bind at 1.
  unfold zkEVMClient_BatchNumber at 1, called. rewrite HB. simpl fst; simpl snd.
  unfold bind at 1, val at 1, isSyncrhonizedTrustedState.
  apply Z.ltb_lt in Hlt. rewrite Hlt. reflexivity.
Qed.

(** With the tip equal to the progress, and below the largest [uint64], the
    call makes exactly one pass, for the batch at the progress. *)
Lemma SyncTrustedState_boundary fuel p (m : machine W) t w :
  BatchNumber (world m) = ((t, None), w) ->
  t = (if p =? 0 then 1 else p) ->
  0 <= t < MaxUint64 ->
  SyncTrustedState (S fuel) p m =
    (let '(r, m', evs) := syncTrustedBatch t (at_world m w) in
     (call_result r, m', CallBatchNumber t None :: evs)).
Proof.
  intros HB Hp Ht. unfold SyncTrustedState, func. unfold bind at 1.
  unfold zkEVMClient_BatchNumber at 1, called. rewrite HB. simpl fst; simpl snd.
  unfold bind at 1, val at 1, isSyncrhonizedTrustedState.
  rewrite <- Hp, Z.ltb_irrefl.
  unfold bind at 1, syncTrustedBatchesToFrom, func. unfold bind at 1.
  cbn [sync_loop]. rewrite Z.leb_refl. unfold bind at 1.
  fold (at_world m w).
  destruct (syncTrustedBatch t (at_world m w)) as [[r m1] evs1].
  destruct r as [[]|e| |]; simpl; rewrite ?app_nil_r; try reflexivity.
  rewrite uint64_incr by assumption.
  destruct fuel; simpl; destruct (Z.leb_spec (t + 1) t); try lia;
    simpl; rewrite ?app_nil_r; reflexivity.
Qed.

(** At the largest [uint64] the counter wraps: after a completed pass for
    batch 2^64-1 the loop goes on with batch 0. *)
Lemma sync_loop_wraps fuel (m : machine W) :
  sync_loop (S fuel) MaxUint64 MaxUint64 m =
    bind (syncTrustedBatch MaxUint64) (fun _ => sync_loop fuel 0 MaxUint64) m.
Proof. reflexivity. Qed.

Lemma loop_run_returns_error last b (m : machine W) r m' evs :
  loop_run last b m r m' evs ->
  forall e, r = Ret e -> exists cause, e = Some cause.
Proof.
  induction 1 as [b m Hgt | b m Hle | b m r m1 evs Hle Hpass Hr
                 | b m m1 evs1 r m2 evs2 Hle Hpass Hrun IH];
    intros e Hret; try discriminate; [|now apply IH].
  subst r. now destruct (syncTrustedBatch_returned _ _ _ _ _ Hpass).
Qed.

(** With the remote tip at the largest [uint64] and a progress within
    [uint64], no call returns success, whatever the collaborators do and
    however long the loop is followed. *)
Lemma SyncTrustedState_at_max_never_succeeds fuel p (m : machine W) w r m' evs :
  BatchNumber (world m) = ((MaxUint64, None), w) ->
  is_uint64 p ->
  SyncTrustedState fuel p m = (r, m', evs) ->
  r <> Val None.
Proof.
  intros HB Hp H.
  assert (Hp' : 1 <= (if p =? 0 then 1 else p) <= MaxUint64).
  { destruct (Z.eqb_spec p 0); unfold is_uint64, MaxUint64 in *; lia. }
  destruct (SyncTrustedState_cases _ _ _ _ _ _ H)
    as [(t & e' & w' & HB' & -> & _)
       |[(t & w' & HB' & Hlt & _)
        |(t & w' & rl & evsl & HB' & _ & Hloop & -> & _)]];
    rewrite HB in HB'; inversion HB'; subst; try discriminate; try lia.
  apply sync_loop_run in Hloop.
  pose proof (loop_run_at_max_never_exits _ _ _ _ _ Hloop) as Hexit.
  destruct rl as [[]|e| |]; try discriminate.
  - contradiction Hexit; [unfold is_uint64 in *; lia | reflexivity].
  - destruct (loop_run_returns_error _ _ _ _ _ _ Hloop e eq_refl) as (c & ->).
    discriminate.
Qed.

End Properties.

(** * The engine on concrete inputs *)

(** C1.  Progress and tip both at the largest [uint64], every collaborator
    succeeding: the pass for batch 2^64-1 completes, the counter wraps to 0,
    and the loop goes on with batches 0 and 1; after three passes, all three
    committed, it is still not done. *)
Theorem boundary_at_max_uint64_wraps :
  let '(r, m', evs) :=
    SyncTrustedState 3 18446744073709551615 (Sim.engine 18446744073709551615 []) in
  r = OutOfFuel /\
  fetched evs = [18446744073709551615; 0; 1] /\
  committedBatches evs = [18446744073709551615; 0; 1] /\
  Sim.committed_numbers m' = [18446744073709551615; 0; 1].
Proof. vm_compute. repeat split. Qed.

(** The same boundary case one below the largest [uint64]: one pass, and the
    call returns. *)
Example boundary_below_max_uint64 :
  let '(r, m', evs) :=
    SyncTrustedState 3 18446744073709551614 (Sim.engine 18446744073709551614 []) in
  r = Val None /\ fetched evs = [18446744073709551614].
Proof. vm_compute. repeat split. Qed.


(** Reuse of slot 0 after a commit is not the engine's doing.  Over an
    executor that hands back the window it was given, a new engine with
    progress 5 and tip 6 commits batch 5 and then batch 6, and returns
    success; the window installed by the commit of batch 5 has an empty
    slot 0, and the pass for batch 6 looks batch 5 up again, after batch 6. *)
Lemma reuse_after_commit_not_guaranteed :
  let m0 := NewSyncTrustedStateTemplate {| Echo.tip := 6 |} in
  (let '(r, m', evs) := SyncTrustedState 2 5 m0 in
   r = Val None /\
   committedBatches evs = [5; 6] /\
   lookups evs = [5; 4; 6; 5]) /\
  (let '(r5, m5, evs5) := syncTrustedBatch 5 m0 in
   let '(r6, m6, evs6) := syncTrustedBatch 6 m5 in
   r5 = Val tt /\
   committedBatches evs5 = [5] /\
   LastTrustedBatches (s_TrustedState m5) = [None; None] /\
   lookups evs6 = [6; 5] /\
   In 5 (lookups evs6)).
Proof. vm_compute. repeat split. now right; left. Qed.

(** The rollback discipline on a run: syncing [5, 10] with an executor
    that rejects batch 8.  The executor's error is the 24th call of the run;
    the rollback of transaction 3 follows and ends the run. *)
Lemma rollback_on_step_error_witness :
  let '(r, m', evs) :=
    SyncTrustedState 10 5 (Sim.engine 10 [(Sim.AtProcess, 8)]) in
  exists pre rollbackErr,
    evs = pre ++ [nth 23 evs (CallBatchNumber 0 None);
                  CallRollback 3%nat rollbackErr] /\
    In (CallBeginStateTransaction 3%nat None) pre /\
    r = Val (match rollbackErr with
             | Some _ => rollbackErr
             | None => Some (Sim.failure Sim.AtProcess)
             end).
Proof.
  destruct (SyncTrustedState 10 5 (Sim.engine 10 [(Sim.AtProcess, 8)]))
    as [[r m'] evs] eqn:E.
  apply (rollback_on_step_error 10 5 _ r m' evs _ 3%nat (Sim.failure Sim.AtProcess) E);
    vm_compute in E; injection E as <- <- <-.
  - vm_compute. do 23 right. left. reflexivity.
  - reflexivity.
Defined.



(** A cache that holds batch 5 over batch 2: resolving for the remote
    batch 5 returns that window, and the executor receives it. *)
Lemma getCurrentBatches_passes_cached_window_witness :
  let m := Sim.engine_holding [Some (Sim.stored 5); Some (Sim.stored 2)] 5 [] in
  contiguous (LastTrustedBatches (s_TrustedState m)) = false /\
  exists w2 new err,
    getCurrentBatches (R := option error)
      [Some (Sim.stored 5); Some (Sim.stored 2)] (Some (Sim.remote_batch 5)) O
      (at_world m w2) =
      (Val ([Some (Sim.stored 5); Some (Sim.stored 2)], None), at_world m w2, []) /\
    exists r m' tail,
      syncTrustedBatch 5 m =
        (r, m',
         CallBatchByNumber 5 (Some (Sim.remote_batch 5)) None
         :: CallBeginStateTransaction O None
         :: CallProcessTrustedBatch (Some (Sim.remote_batch 5)) (s_TrustedState m) O
              new err
         :: tail).
Proof.
  intros m. split; [reflexivity|]. do 3 eexists.
  eapply (getCurrentBatches_passes_cached_window 5 m (Sim.remote_batch 5) _ O _
            (Sim.stored 5) [Some (Sim.stored 2)]);
    reflexivity.
Defined.

(** A new engine over an empty store, tip 6.  The pass for batch 5 commits
    and installs the executor's window, batch 5 in slot 0; the pass for
    batch 6 that follows looks up batch 6 only and gives the executor batch 5
    as slot 1.  A cache that holds batch 5 is returned as it is for the
    remote batch 5. *)
Lemma slot0_reused_iff_cached_witness :
  let m0 := Sim.engine 6 [] in
  let m1 := snd (fst (syncTrustedBatch 5 m0)) in
  let pass6 := snd (syncTrustedBatch 6 m1) in
  LastTrustedBatches (s_TrustedState m1) = [Some (Sim.stored 5); None] /\
  lookups pass6 = [6] /\
  ~ In 5 (lookups pass6) /\
  (exists new perr,
     In (CallProcessTrustedBatch (Some (Sim.remote_batch 6))
           {| LastTrustedBatches := [None; Some (Sim.stored 5)];
              LastStateRoot := Some {| batchNumber := 5; StateRoot := 1005 |} |}
           1%nat new perr) pass6) /\
  getCurrentBatches (R := option error)
    [Some (Sim.stored 5)] (Some (Sim.remote_batch 5)) O m0 =
    (Val ([Some (Sim.stored 5)], None), m0, []).
Proof.
  intros m0 m1 pass6.
  pose (status := {| LastTrustedBatches := [None; None]; LastStateRoot := None |}).
  destruct (slot0_reused_iff_cached (option error) [] (Sim.remote_batch 6) O m0)
    as (_ & _ & _ & Hnext).
  destruct (Hnext 5 m0 m1 (snd (syncTrustedBatch 5 m0)) (Sim.remote_batch 5)
              status O (Sim.next_window (Sim.stored 5) status)
              (Sim.stored 5) [None])
    as (_ & _ & Hcache & Hpass);
    [ reflexivity
    | vm_compute; repeat (first [left; reflexivity | right])
    | reflexivity
    | reflexivity
    | unfold is_uint64, MaxUint64; simpl; lia
    | reflexivity
    | ].
  destruct (Hpass 6 m1 (Sim.with_current (world m1) 6) 1%nat
              (snd (BeginStateTransaction (Sim.with_current (world m1) 6)))
              (fst (fst (syncTrustedBatch 6 m1))) (snd (fst (syncTrustedBatch 6 m1)))
              pass6)
    as (Hl & Hno & Hgiven); try reflexivity.
  split; [now rewrite Hcache|].
  split; [exact Hl|]. split; [exact Hno|]. split.
  - exact (Hgiven None (Some state.ErrNotFound) _ eq_refl eq_refl).
  - destruct (slot0_reused_iff_cached (option error) [Some (Sim.stored 5)]
                (Sim.remote_batch 5) O m0) as (_ & Hhit & _ & _).
    apply Hhit. exists (Sim.stored 5), []. split; reflexivity.
Defined.

(** The first call of a new engine against an empty store, and a
    resolution whose lookup for slot 1 fails. *)
Lemma getCurrentBatches_tolerates_not_found_witness :
  (exists r m' tail new err,
     SyncTrustedState 2 0 (Sim.engine 1 []) =
       (r, m',
        [CallBatchNumber 1 None;
         CallBatchByNumber 1 (Some (Sim.remote_batch 1)) None;
         CallBeginStateTransaction O None;
         CallGetBatchByNumber 1 O None (Some state.ErrNotFound);
         CallGetBatchByNumber 0 O None (Some state.ErrNotFound);
         CallProcessTrustedBatch (Some (Sim.remote_batch 1))
           {| LastTrustedBatches := [None; None]; LastStateRoot := None |} O
           new err] ++ tail)) /\
  getCurrentBatches (R := option error) [] (Some (Sim.remote_batch 5)) O
    (Sim.engine 5 [(Sim.AtLookup, 4)]) =
    (Val ([], Some (Sim.failure Sim.AtLookup)), Sim.engine 5 [(Sim.AtLookup, 4)],
     [CallGetBatchByNumber 5 O None (Some state.ErrNotFound);
      CallGetBatchByNumber 4 O None (Some (Sim.failure Sim.AtLookup))]).
Proof.
  destruct (getCurrentBatches_tolerates_not_found (W := Sim.World))
    as (_ & _ & Hslot1 & _ & Hfirst).
  split.
  - edestruct (Hfirst 1%nat (Sim.fresh 1 []) 1 (Sim.fresh 1 []) (Sim.remote_batch 1))
      as (r & m' & tail & E); try reflexivity; try lia.
    exists r, m', tail. do 2 eexists. exact E.
  - apply (Hslot1 (option error) [] (Sim.remote_batch 5) O
             (Sim.engine 5 [(Sim.AtLookup, 4)]) None (Some state.ErrNotFound)
             (Sim.fresh 5 [(Sim.AtLookup, 4)]) None (Sim.failure Sim.AtLookup)
             (Sim.fresh 5 [(Sim.AtLookup, 4)]));
      try reflexivity; [right; reflexivity | discriminate].
Defined.

(** A new engine and a remote batch numbered 0. *)
Lemma getCurrentBatches_predecessor_of_zero_witness :
  uint64 (0 - 1) = 18446744073709551615 /\
  getCurrentBatches (R := option error) [] (Some (Sim.remote_batch 0)) O
    (Sim.engine 0 []) =
    (Val ([None; None], None), Sim.engine 0 [],
     [CallGetBatchByNumber 0 O None (Some state.ErrNotFound);
      CallGetBatchByNumber 18446744073709551615 O None (Some state.ErrNotFound)]).
Proof.
  exact (getCurrentBatches_predecessor_of_zero (option error) []
           (Sim.remote_batch 0) O (Sim.engine 0 [])
           None (Some state.ErrNotFound) (Sim.fresh 0 [])
           None (Some state.ErrNotFound) (Sim.fresh 0 [])
           eq_refl eq_refl eq_refl eq_refl eq_refl eq_refl).
Defined.

